(** * linkedin-analyzer-backend: the three revisions of [server.js]

    A shallow embedding of the Express handlers of [server.js] (OAuth
    authorization-code callback, connection status, post fetching) and the
    properties of its specification.

    The source file holds three revisions of the server.  Each revision is
    embedded in a module of its own ([Rev1], [Rev2], [Rev3]); what they
    share (the JavaScript built-ins they call, the token table, the handler
    monad) comes first. *)

From Stdlib Require Import Ascii DecimalString.
From stdpp Require Import base option numbers strings list gmap.

Local Open Scope string_scope.
Local Open Scope Z_scope.

(** ** JavaScript values and built-ins used by the handlers *)

(** The JSON values handed to [res.json]. *)
#[local] Unset Elimination Schemes.
Inductive json : Type :=
| JNull
| JBool (b : bool)
| JNum (n : Z)
| JStr (s : string)
| JArr (items : list json)
| JObj (fields : list (string * json)).
#[local] Set Elimination Schemes.

(** Property access [obj.key] on an object literal; [None] is [undefined]. *)
Fixpoint assoc {A} (key : string) (fields : list (string * A)) : option A :=
  match fields with
  | [] => None
  | (k, v) :: rest => if String.eqb k key then Some v else assoc key rest
  end.

Definition get_field (key : string) (j : json) : option json :=
  match j with
  | JObj fields => assoc key fields
  | _ => None
  end.

(** A value of [req.query] and of axios' [params]: absent ([undefined]), one
    string, or the array a repeated parameter is parsed to. *)
Inductive qval : Type :=
| QUndefined
| QStr (s : string)
| QArr (items : list string).

(** JavaScript truthiness: [undefined] and the empty string are falsy, every
    other string and every array is truthy. *)
Definition truthy_string (s : string) : bool := negb (String.eqb s "").

Definition truthy (v : qval) : bool :=
  match v with
  | QUndefined => false
  | QStr s => truthy_string s
  | QArr _ => true
  end.

(** [v || d] on a possibly undefined string. *)
Definition or_default (v : option string) (d : string) : string :=
  match v with
  | Some s => if truthy_string s then s else d
  | None => d
  end.

(** Optional chaining [o?.f]: [undefined] when [o] is. *)
Definition chain {A B} (o : option A) (f : A -> option B) : option B :=
  match o with
  | Some a => f a
  | None => None
  end.
Infix "?." := chain (at level 40, left associativity).

(** Interpolation [`${v}`] of a possibly undefined string in a template
    literal. *)
Definition tpl (v : option string) : string := default "undefined" v.

(** Decimal rendering of a non-negative integer, as [`${n}`] does. *)
Definition dec (n : Z) : string := NilZero.string_of_uint (N.to_uint (Z.to_N n)).

Fixpoint zeros (k : nat) : string :=
  match k with
  | O => ""
  | S k' => String "0"%char (zeros k')
  end.

Definition pad (width : nat) (n : Z) : string :=
  let s := dec n in zeros (width - String.length s) +:+ s.

(** *** [Date]

    A time value is a number of milliseconds since the epoch.  [TimeClip]
    is the validity range of ECMAScript: outside it the [Date] is invalid
    ([None]). *)
Definition msPerDay : Z := 86400000.

Definition TimeClip (t : Z) : option Z :=
  if Z.abs t <=? 8640000000000000 then Some t else None.

(** Year, month and day of a day number (days since 1970-01-01), in the
    proleptic Gregorian calendar. *)
Definition civil_from_days (days : Z) : Z * Z * Z :=
  let z := days + 719468 in
  let era := z / 146097 in
  let doe := z - era * 146097 in
  let yoe := (doe - doe / 1460 + doe / 36524 - doe / 146096) / 365 in
  let doy := doe - (365 * yoe + yoe / 4 - yoe / 100) in
  let mp := (5 * doy + 2) / 153 in
  let d := doy - (153 * mp + 2) / 5 + 1 in
  let m := if mp <? 10 then mp + 3 else mp - 9 in
  let y := yoe + era * 400 + (if m <=? 2 then 1 else 0) in
  (y, m, d).

Definition iso_year (y : Z) : string :=
  if (0 <=? y) && (y <=? 9999) then pad 4 y
  else (if y <? 0 then "-" else "+") +:+ pad 6 (Z.abs y).

(** [Date.prototype.toISOString] of a valid time value. *)
Definition toISOString (t : Z) : string :=
  let '(y, m, d) := civil_from_days (t / msPerDay) in
  let tod := t mod msPerDay in
  iso_year y +:+ "-" +:+ pad 2 m +:+ "-" +:+ pad 2 d +:+ "T" +:+
  pad 2 (tod / 3600000) +:+ ":" +:+ pad 2 (tod / 60000 mod 60) +:+ ":" +:+
  pad 2 (tod / 1000 mod 60) +:+ "." +:+ pad 3 (tod mod 1000) +:+ "Z".

(** [s.split('T')[0]]: the part of [s] before its first ['T']. *)
Fixpoint split_T_head (s : string) : string :=
  match s with
  | EmptyString => EmptyString
  | String c rest =>
      if Ascii.eqb c "T"%char then EmptyString else String c (split_T_head rest)
  end.

(** Local time.  [tza t isUTC] is the offset of the host's time zone, in
    milliseconds: at the UTC time value [t] when [isUTC] holds, at the
    local time value [t] otherwise (ECMAScript's LocalTZA). *)
Definition LocalTime (tza : Z -> bool -> Z) (t : Z) : Z := t + tza t true.

Definition UTC (tza : Z -> bool -> Z) (t : Z) : Z := t - tza t false.

(** [expires_at.setSeconds(expires_at.getSeconds() + expires_in)] on the
    date [t].  The seconds are replaced in local time, and the result is
    clipped to the range of [Date]; an [undefined] [expires_in] makes the
    sum [NaN].  [None] is the Invalid Date. *)
Definition setSeconds_plus (tza : Z -> bool -> Z) (t : Z)
    (expires_in : option Z) : option Z :=
  match expires_in with
  | Some n => TimeClip (UTC tza (LocalTime tza t + 1000 * n))
  | None => None
  end.

(** *** [encodeURIComponent], on the bytes of the string *)
Definition unreserved (c : ascii) : bool :=
  let n := Z.of_N (Ascii.N_of_ascii c) in
  ((48 <=? n) && (n <=? 57)) || ((65 <=? n) && (n <=? 90)) ||
  ((97 <=? n) && (n <=? 122)) ||
  existsb (Ascii.eqb c) (String.list_ascii_of_string "-_.!~*'()").

Definition hex_digit (n : N) : ascii :=
  default "0"%char (String.get (N.to_nat n) "0123456789ABCDEF").

Fixpoint encodeURIComponent (s : string) : string :=
  match s with
  | EmptyString => EmptyString
  | String c rest =>
      if unreserved c then String c (encodeURIComponent rest)
      else
        let n := Ascii.N_of_ascii c in
        String "%"%char (String (hex_digit (n / 16)) (String (hex_digit (n mod 16))
          (encodeURIComponent rest)))
  end.

(** ** Process configuration and the outside world *)

(** [process.env] and the module-level [dbPool].  An unset variable is
    [None]; [dbPool] is [false] when no pool object exists (creating it
    failed: [undefined] in revision 1, [null] in revision 2). *)
Record server : Type := Server {
  FRONTEND_URL : option string;
  BACKEND_URL : option string;
  LINKEDIN_CLIENT_ID : option string;
  LINKEDIN_CLIENT_SECRET : option string;
  dbPool : bool
}.

(** The columns of a row of [linkedin_auth] next to its key: the bearer
    token and the time value at which it expires.  mysql2 writes an
    Invalid Date as the zero DATETIME, which is [None] here. *)
Record TokenRecord : Type := Token {
  access_token : string;
  expires_at : option Z
}.

(** Modelled from the spec: the definition of table [linkedin_auth] is not
    part of the repository.  The specification describes "one table keyed
    by user identifier with columns for access token and expiry", which is
    also what [ON DUPLICATE KEY UPDATE] relies on; the table is therefore a
    finite map from [user_id] to the two other columns. *)
Abbreviation linkedin_auth := (gmap string TokenRecord).

(** What axios reports for one request: a 2xx reply with its parsed body, a
    reply with another status (axios rejects with [error.response] set), or
    no reply at all (axios rejects without [error.response]). *)
Inductive http_reply (A : Type) : Type :=
| Http2xx (data : A)
| HttpError (status : Z) (body : string)
| NetworkError (msg : string).
Arguments Http2xx {A} data.
Arguments HttpError {A} status body.
Arguments NetworkError {A} msg.

(** Body of the token endpoint's reply, as the callback destructures it:
    [access_token] and [expires_in] (a whole number of seconds) are each
    [undefined] when the body does not carry them. *)
Record token_data : Type := TokenData {
  td_access_token : option string;
  td_expires_in : option Z
}.

(** Body of [/v2/me]; only [id] is read. *)
Record profile : Type := Profile { profile_id : option string }.

(** An element of the [/rest/posts] listing (revisions 1 and 2).  [id] is
    whatever JSON value the element carries under that name, if any;
    [commentary] and each step of [content?.media?.source?.downloadUrl]
    may be missing; [createdAt] is a number. *)
Record media_source : Type := MediaSource { downloadUrl : option string }.
Record media : Type := Media { source : option media_source }.
Record post_content : Type := PostContent { content_media : option media }.
Record rest_post : Type := RestPost {
  post_id : option json;
  commentary : option string;
  content : option post_content;
  createdAt : Z
}.

(** An element of the [/v2/shares] listing as revision 3 reads it:
    [specificContent] is an object indexed by a type name (the lookup
    throws when the object itself is missing), [created.time] a time
    value. *)
Record share_commentary : Type := ShareCommentary { text : option string }.
Record share_content : Type := ShareContent {
  shareCommentary : option share_commentary
}.
Record share : Type := Share {
  share_id : option json;
  specificContent : option (list (string * share_content));
  created_time : Z
}.

(** Everything outside the process that one request observes: the clock
    and the time zone of the host, whether the database answers, and the
    provider's replies.  The listing bodies are their [elements] field
    ([None]: no such field). *)
Record env : Type := Env {
  now : Z;
  LocalTZA : Z -> bool -> Z;
  db_up : bool;
  token_endpoint : http_reply token_data;
  me_endpoint : http_reply profile;
  posts_endpoint : http_reply (option (list rest_post));
  shares_endpoint : http_reply (option (list share))
}.

(** ** Effects *)

(** Observable actions of a handler, in order: outbound HTTP calls (axios
    is always called with a [null] body here) and statements that reached
    the database. *)
Inductive event : Type :=
| AxiosPost (url : string) (params : list (string * qval))
    (headers : list (string * string))
| AxiosGet (url : string) (headers : list (string * string))
| DbSelect (user_id : string)
| DbUpsert (user_id : string) (row : TokenRecord).

Definition is_outbound (ev : event) : bool :=
  match ev with
  | AxiosPost _ _ _ | AxiosGet _ _ => true
  | _ => false
  end.

Definition is_store_write (ev : event) : bool :=
  match ev with
  | DbUpsert _ _ => true
  | _ => false
  end.

(** The state a handler runs in: the table, the stream [Math.random] draws
    from (53-bit mantissas), and the actions performed so far. *)
Record world : Type := World {
  table : linkedin_auth;
  rng : list Z;
  trace : list event
}.

(** A thrown JavaScript error; [err_response] is axios' [error.response]
    (status and body). *)
Record js_error : Type := JsError {
  err_response : option (Z * string);
  err_message : string
}.

Inductive outcome (A : Type) : Type :=
| Return (a : A)
| Throw (e : js_error).
Arguments Return {A} a.
Arguments Throw {A} e.

Definition M (A : Type) : Type := world -> outcome A * world.

Definition ret {A} (a : A) : M A := fun w => (Return a, w).

Definition throw {A} (e : js_error) : M A := fun w => (Throw e, w).

Definition bind {A B} (m : M A) (k : A -> M B) : M B :=
  fun w =>
    match m w with
    | (Return a, w') => k a w'
    | (Throw e, w') => (Throw e, w')
    end.

(** [try { m } catch (error) { h error }] *)
Definition try_catch {A} (m : M A) (h : js_error -> M A) : M A :=
  fun w =>
    match m w with
    | (Return a, w') => (Return a, w')
    | (Throw e, w') => h e w'
    end.

Declare Scope js_scope.
Delimit Scope js_scope with js.
Notation "x <- m ;; k" := (bind m (fun x => k))
  (at level 100, m at next level, right associativity) : js_scope.
Notation "m ;;; k" := (bind m (fun _ => k))
  (at level 100, right associativity) : js_scope.
Local Open Scope js_scope.

Definition emit (ev : event) : M unit :=
  fun w => (Return tt,
            {| table := table w; rng := rng w; trace := trace w ++ [ev] |}).

(** [Array.prototype.map] with a callback that has effects or throws. *)
Fixpoint js_map {A B} (f : A -> M B) (l : list A) : M (list B) :=
  match l with
  | [] => ret []
  | x :: rest => y <- f x ;; ys <- js_map f rest ;; ret (y :: ys)
  end.

(** [Math.random()]: the next mantissa [m] of the stream stands for the
    double [m / 2^53] in [[0, 1)]. *)
Definition next_mantissa (stream : list Z) : Z := default 0 (head stream) mod 2 ^ 53.

(** [Math.floor(r * n)] for the double [r = m / 2^53]. *)
Definition floor_scaled (m n : Z) : Z := m * n / 2 ^ 53.

(** [Math.floor(Math.random() * n)] *)
Definition floor_random (n : Z) : M Z :=
  fun w =>
    (Return (floor_scaled (next_mantissa (rng w)) n),
     {| table := table w; rng := tail (rng w); trace := trace w |}).

Definition TypeError (msg : string) : js_error :=
  {| err_response := None; err_message := msg |}.

(** [axios.post(url, null, { params, headers })] and
    [axios.get(url, { headers })]: the request is issued, then the reply
    decides between a value and a rejection. *)
Definition settle {A} (reply : http_reply A) : M A :=
  match reply with
  | Http2xx data => ret data
  | HttpError status body =>
      throw {| err_response := Some (status, body);
               err_message := "Request failed with status code " +:+ dec status |}
  | NetworkError msg => throw {| err_response := None; err_message := msg |}
  end.

Definition axios_post {A} (reply : http_reply A) (url : string)
    (params : list (string * qval)) (headers : list (string * string)) : M A :=
  emit (AxiosPost url params headers) ;;; settle reply.

Definition axios_get {A} (reply : http_reply A) (url : string)
    (headers : list (string * string)) : M A :=
  emit (AxiosGet url headers) ;;; settle reply.

(** [dbPool.execute(sql, values)].  Without a pool object the member access
    throws; mysql2 rejects an [undefined] bind parameter before it talks to
    the database; an unreachable database rejects the statement. *)
Definition no_pool : js_error :=
  TypeError "Cannot read properties of undefined (reading 'execute')".

Definition undefined_parameter : js_error :=
  TypeError "Bind parameters must not contain undefined. To pass SQL NULL specify JS null".

Definition db_unreachable : js_error := TypeError "connect ECONNREFUSED".

(** The rows [WHERE user_id = ?] selects. *)
Definition rows_where (t : linkedin_auth) (user_id : string) : list TokenRecord :=
  option_list (t !! user_id).

(** [SELECT ... FROM linkedin_auth WHERE user_id = ?]: the rows found. *)
Definition execute_select (srv : server) (e : env) (user_id : string)
    : M (list TokenRecord) :=
  if negb (dbPool srv) then throw no_pool
  else if negb (db_up e) then throw db_unreachable
  else emit (DbSelect user_id) ;;; (fun w => (Return (rows_where (table w) user_id), w)).

(** [INSERT INTO linkedin_auth (user_id, access_token, expires_at)
     VALUES (?, ?, ?) ON DUPLICATE KEY UPDATE access_token = ?, expires_at = ?] *)
Definition execute_upsert (srv : server) (e : env) (user_id : string)
    (token : option string) (expiry : option Z) : M unit :=
  if negb (dbPool srv) then throw no_pool
  else
    match token with
    | None => throw undefined_parameter
    | Some tok =>
        if negb (db_up e) then throw db_unreachable
        else
          let row := {| access_token := tok; expires_at := expiry |} in
          emit (DbUpsert user_id row) ;;;
          (fun w => (Return tt,
                     {| table := <[user_id := row]> (table w);
                        rng := rng w; trace := trace w |}))
    end.

(** ** HTTP answers *)

Inductive response : Type :=
| Redirect (status : Z) (location : string)
| Json (status : Z) (body : json)
| Send (status : Z) (body : string).

(** [res.redirect(url)] answers 302 with a [Location] header.  It assigns
    the status code itself, so the [res.status(400)] chained before it in
    revisions 1 and 2 does not reach the client. *)
Definition res_redirect (url : string) : response := Redirect 302 url.

Definition res_status_redirect (status : Z) (url : string) : response :=
  res_redirect url.

(** [res.json(body)] answers 200 unless [res.status] was called first. *)
Definition res_json (body : json) : response := Json 200 body.

(** ** Helpers shared by the three revisions *)

(** A [process.env] value passed as a request parameter. *)
Definition env_param (v : option string) : qval :=
  match v with
  | Some s => QStr s
  | None => QUndefined
  end.

(** [v || d] where evaluating [d] has effects: [d] runs only when [v] is
    falsy. *)
Definition or_else (v : option string) (d : M string) : M string :=
  match v with
  | Some s => if truthy_string s then ret s else d
  | None => d
  end.

(** [new Date(t).toISOString().split('T')[0]]; [toISOString] throws a
    [RangeError] on an invalid date. *)
Definition iso_date (t : Z) : M string :=
  match TimeClip t with
  | Some t' => ret (split_T_head (toISOString t'))
  | None => throw (TypeError "Invalid time value")
  end.

Definition placeholder_prefix : string := "https://picsum.photos/800/400?random=".

(** [`https://picsum.photos/800/400?random=${Math.floor(Math.random()*1000)}`] *)
Definition placeholder_image : M string :=
  n <- floor_random 1000 ;; ret (placeholder_prefix +:+ dec n).

Definition message (msg : string) : json := JObj [("message", JStr msg)].

(** A property of an object literal as [res.json] sends it: a property
    whose value is [undefined] is left out of the JSON text. *)
Definition js_field (key : string) (value : option json) : list (string * json) :=
  match value with
  | Some v => [(key, v)]
  | None => []
  end.

(** ** Start-up

    What the process reads and finds when it starts: its environment
    variables, and whether [mysql.createPool] returns (or throws) and
    [dbPool.getConnection()] resolves (or rejects). *)
Record process_env : Type := ProcessEnv {
  env_FRONTEND_URL : option string;
  env_BACKEND_URL : option string;
  env_LINKEDIN_CLIENT_ID : option string;
  env_LINKEDIN_CLIENT_SECRET : option string;
  env_PORT : option string
}.

Record database : Type := Database {
  createPool_returns : bool;
  getConnection_resolves : bool
}.

(** How start-up ends: [process.exit(code)], a process that never calls
    [app.listen], or a server listening on [port] (and [host]) whose
    handlers see [srv]; [fallback] tells whether the [app.get('*')] route
    answering 503 was registered behind the other routes. *)
Inductive startup : Type :=
| ProcessExit (code : Z)
| NotListening
| Listening (port : string) (host : option string) (srv : server) (fallback : bool).

(** The configuration the handlers read, given what became of [dbPool]. *)
Definition handlers_config (p : process_env) (pool : bool) : server :=
  {| FRONTEND_URL := env_FRONTEND_URL p;
     BACKEND_URL := env_BACKEND_URL p;
     LINKEDIN_CLIENT_ID := env_LINKEDIN_CLIENT_ID p;
     LINKEDIN_CLIENT_SECRET := env_LINKEDIN_CLIENT_SECRET p;
     dbPool := pool |}.

(** ** Revision 1 *)
Module Rev1.

(** [GET /auth/linkedin] *)
Definition begin_authorization (srv : server) : response :=
  let scope := "r_liteprofile" in
  let redirectUri := tpl (BACKEND_URL srv) +:+ "/auth/linkedin/callback" in
  let url :=
    "https://www.linkedin.com/oauth/v2/authorization?response_type=code&client_id="
    +:+ tpl (LINKEDIN_CLIENT_ID srv) +:+ "&redirect_uri="
    +:+ encodeURIComponent redirectUri +:+ "&scope=" +:+ encodeURIComponent scope in
  res_redirect url.

(** [GET /auth/linkedin/callback] *)
Definition callback (srv : server) (e : env) (code : qval) : M response :=
  let redirectUri := tpl (BACKEND_URL srv) +:+ "/auth/linkedin/callback" in
  if negb (truthy code) then
    ret (res_status_redirect 400 (tpl (FRONTEND_URL srv) +:+ "/settings?error=true"))
  else
    try_catch
      (tokenResponse <-
         axios_post (token_endpoint e)
           "https://www.linkedin.com/oauth/v2/accessToken"
           [("grant_type", QStr "authorization_code");
            ("code", code);
            ("redirect_uri", QStr redirectUri);
            ("client_id", env_param (LINKEDIN_CLIENT_ID srv));
            ("client_secret", env_param (LINKEDIN_CLIENT_SECRET srv))]
           [("Content-Type", "application/x-form-urlencoded")] ;;
       let access_token := td_access_token tokenResponse in
       let expires_in := td_expires_in tokenResponse in
       let expires_at := setSeconds_plus (LocalTZA e) (now e) expires_in in
       let userId := "default_user" in
       execute_upsert srv e userId access_token expires_at ;;;
       ret (res_redirect (tpl (FRONTEND_URL srv) +:+ "/settings?connected=true")))
      (fun error =>
         ret (res_redirect (tpl (FRONTEND_URL srv) +:+ "/settings?error=true"))).

(** The callback of [apiResponse.data.elements.map]. *)
Definition formatPost (post : rest_post) : M json :=
  imageUrl <-
    or_else (content post ?. content_media ?. source ?. downloadUrl)
            placeholder_image ;;
  date <- iso_date (createdAt post) ;;
  ret (JObj (js_field "id" (post_id post) ++
    [("content", JStr (or_default (commentary post) ""));
     ("imageUrl", JStr imageUrl);
     ("impressions", JNum 0);
     ("reactions", JObj [("likes", JNum 0); ("celebrations", JNum 0);
                         ("loves", JNum 0); ("insights", JNum 0);
                         ("funny", JNum 0)]);
     ("comments", JNum 0);
     ("shares", JNum 0);
     ("date", JStr date)])).

Definition permission_message : string :=
  "Authentication successful, but you do not have permission to access post data. Please ensure your LinkedIn App has the " +:+ String (ascii_of_nat 34) "Community Management API" +:+ String (ascii_of_nat 34) " product approved.".

(** [GET /api/posts] *)
Definition posts (srv : server) (e : env) : M response :=
  try_catch
    (rows <- execute_select srv e "default_user" ;;
     match rows with
     | [] =>
         ret (Json 401 (message "Not authenticated. Please connect to LinkedIn."))
     | row0 :: _ =>
         let accessToken := access_token row0 in
         profileResponse <-
           axios_get (me_endpoint e) "https://api.linkedin.com/v2/me"
             [("Authorization", "Bearer " +:+ accessToken)] ;;
         let personUrn := "urn:li:person:" +:+ tpl (profile_id profileResponse) in
         let linkedInApiUrl :=
           "https://api.linkedin.com/rest/posts?author=" +:+ personUrn
           +:+ "&q=author&count=15" in
         apiResponse <-
           axios_get (posts_endpoint e) linkedInApiUrl
             [("Authorization", "Bearer " +:+ accessToken);
              ("LinkedIn-Version", "202405")] ;;
         match apiResponse with
         | None =>
             throw (TypeError "Cannot read properties of undefined (reading 'map')")
         | Some elements =>
             formattedPosts <- js_map formatPost elements ;;
             ret (res_json (JArr formattedPosts))
         end
     end)
    (fun error =>
       match err_response error with
       | Some (status, _) =>
           if status =? 403 then ret (Json 403 (message permission_message))
           else ret (Json 500 (message "Failed to fetch posts from LinkedIn API."))
       | None => ret (Json 500 (message "Failed to fetch posts from LinkedIn API."))
       end).

(** [GET /api/status] *)
Definition status (srv : server) (e : env) : M response :=
  try_catch
    (rows <- execute_select srv e "default_user" ;;
     if (0 <? length rows)%nat
     then ret (res_json (JObj [("isConnected", JBool true)]))
     else ret (res_json (JObj [("isConnected", JBool false)])))
    (fun error =>
       ret (Json 500 (JObj [("isConnected", JBool false);
                            ("message", JStr "Could not check status.")]))).

(** Start-up: the pool is created inside [try]; the server listens
    whatever became of it.  [PORT] is [process.env.PORT || 3001]. *)
Definition start (p : process_env) (db : database) : startup :=
  Listening (or_default (env_PORT p) "3001") None
    (handlers_config p (createPool_returns db)) false.

End Rev1.

(** ** Revision 2

    The pool is created by [initializeDatabase]; when that fails [dbPool]
    is [null], the routes stay registered, and each handler starts with a
    test of [dbPool]. *)
Module Rev2.

(** [GET /auth/linkedin] *)
Definition begin_authorization (srv : server) : response :=
  let scope := "r_liteprofile" in
  let redirectUri := tpl (BACKEND_URL srv) +:+ "/auth/linkedin/callback" in
  let url :=
    "https://www.linkedin.com/oauth/v2/authorization?response_type=code&client_id="
    +:+ tpl (LINKEDIN_CLIENT_ID srv) +:+ "&redirect_uri="
    +:+ encodeURIComponent redirectUri +:+ "&scope=" +:+ encodeURIComponent scope in
  res_redirect url.

(** [GET /auth/linkedin/callback] *)
Definition callback (srv : server) (e : env) (code : qval) : M response :=
  if negb (dbPool srv) then
    ret (Send 500 "Server error: Database connection failed.")
  else
    let redirectUri := tpl (BACKEND_URL srv) +:+ "/auth/linkedin/callback" in
    if negb (truthy code) then
      ret (res_status_redirect 400 (tpl (FRONTEND_URL srv) +:+ "/settings?error=true"))
    else
      try_catch
        (tokenResponse <-
           axios_post (token_endpoint e)
             "https://www.linkedin.com/oauth/v2/accessToken"
             [("grant_type", QStr "authorization_code");
              ("code", code);
              ("redirect_uri", QStr redirectUri);
              ("client_id", env_param (LINKEDIN_CLIENT_ID srv));
              ("client_secret", env_param (LINKEDIN_CLIENT_SECRET srv))]
             [("Content-Type", "application/x-form-urlencoded")] ;;
         let access_token := td_access_token tokenResponse in
         let expires_in := td_expires_in tokenResponse in
         let expires_at := setSeconds_plus (LocalTZA e) (now e) expires_in in
         let userId := "default_user" in
         execute_upsert srv e userId access_token expires_at ;;;
         ret (res_redirect (tpl (FRONTEND_URL srv) +:+ "/settings?connected=true")))
        (fun error =>
           ret (res_redirect (tpl (FRONTEND_URL srv) +:+ "/settings?error=true"))).

(** The callback of [apiResponse.data.elements.map]. *)
Definition formatPost (post : rest_post) : M json :=
  imageUrl <-
    or_else (content post ?. content_media ?. source ?. downloadUrl)
            placeholder_image ;;
  date <- iso_date (createdAt post) ;;
  ret (JObj (js_field "id" (post_id post) ++
    [("content", JStr (or_default (commentary post) ""));
     ("imageUrl", JStr imageUrl);
     ("impressions", JNum 0);
     ("reactions", JObj [("likes", JNum 0); ("celebrations", JNum 0);
                         ("loves", JNum 0); ("insights", JNum 0);
                         ("funny", JNum 0)]);
     ("comments", JNum 0);
     ("shares", JNum 0);
     ("date", JStr date)])).

Definition permission_message : string :=
  "Authentication successful, but you do not have permission to access post data. Please ensure your LinkedIn App has the " +:+ String (ascii_of_nat 34) "Community Management API" +:+ String (ascii_of_nat 34) " product approved.".

(** [GET /api/posts] *)
Definition posts (srv : server) (e : env) : M response :=
  if negb (dbPool srv) then
    ret (Json 500 (message "Server error: Database connection failed."))
  else
    try_catch
      (rows <- execute_select srv e "default_user" ;;
       match rows with
       | [] =>
           ret (Json 401 (message "Not authenticated. Please connect to LinkedIn."))
       | row0 :: _ =>
           let accessToken := access_token row0 in
           profileResponse <-
             axios_get (me_endpoint e) "https://api.linkedin.com/v2/me"
               [("Authorization", "Bearer " +:+ accessToken)] ;;
           let personUrn := "urn:li:person:" +:+ tpl (profile_id profileResponse) in
           let linkedInApiUrl :=
             "https://api.linkedin.com/rest/posts?author=" +:+ personUrn
             +:+ "&q=author&count=15" in
           apiResponse <-
             axios_get (posts_endpoint e) linkedInApiUrl
               [("Authorization", "Bearer " +:+ accessToken);
                ("LinkedIn-Version", "202405")] ;;
           match apiResponse with
           | None =>
               throw (TypeError "Cannot read properties of undefined (reading 'map')")
           | Some elements =>
               formattedPosts <- js_map formatPost elements ;;
               ret (res_json (JArr formattedPosts))
           end
       end)
      (fun error =>
         match err_response error with
         | Some (status, _) =>
             if status =? 403 then ret (Json 403 (message permission_message))
             else ret (Json 500 (message "Failed to fetch posts from LinkedIn API."))
         | None => ret (Json 500 (message "Failed to fetch posts from LinkedIn API."))
         end).

(** [GET /api/status] *)
Definition status (srv : server) (e : env) : M response :=
  if negb (dbPool srv) then
    ret (res_json (JObj [("isConnected", JBool false)]))
  else
    try_catch
      (rows <- execute_select srv e "default_user" ;;
       ret (res_json (JObj [("isConnected", JBool (0 <? length rows)%nat)])))
      (fun error =>
         ret (Json 500 (JObj [("isConnected", JBool false);
                              ("message", JStr "Could not check status.")]))).

(** [initializeDatabase]: what becomes of [dbPool], and the value
    returned.  A pool that was created is dropped again ([dbPool = null])
    when the test connection is refused. *)
Definition initializeDatabase (db : database) : bool * bool :=
  if createPool_returns db then
    if getConnection_resolves db then (true, true) else (false, false)
  else (false, false).

(** [startServer]: the server listens in both cases; after a failure the
    503 route is registered first. *)
Definition startServer (p : process_env) (db : database) : startup :=
  let '(pool, dbReady) := initializeDatabase db in
  let PORT := or_default (env_PORT p) "3001" in
  if dbReady then Listening PORT None (handlers_config p pool) false
  else Listening PORT None (handlers_config p pool) true.

End Rev2.

(** ** Revision 3

    [FRONTEND_URL] and [BACKEND_URL] are read once at start-up; the posts
    come from [/v2/shares] and their metrics are filled with random
    numbers. *)
Module Rev3.

(** [GET /auth/linkedin] *)
Definition begin_authorization (srv : server) : response :=
  let scope := "r_liteprofile" in
  let redirectUri := tpl (BACKEND_URL srv) +:+ "/auth/linkedin/callback" in
  let url :=
    "https://www.linkedin.com/oauth/v2/authorization?response_type=code&client_id="
    +:+ tpl (LINKEDIN_CLIENT_ID srv) +:+ "&redirect_uri="
    +:+ encodeURIComponent redirectUri +:+ "&scope=" +:+ encodeURIComponent scope in
  res_redirect url.

(** [GET /auth/linkedin/callback] *)
Definition callback (srv : server) (e : env) (code : qval) : M response :=
  if negb (truthy code) then
    ret (res_redirect (tpl (FRONTEND_URL srv) +:+ "/settings?error=true"))
  else
    try_catch
      (tokenResponse <-
         axios_post (token_endpoint e)
           "https://www.linkedin.com/oauth/v2/accessToken"
           [("grant_type", QStr "authorization_code");
            ("code", code);
            ("redirect_uri",
             QStr (tpl (BACKEND_URL srv) +:+ "/auth/linkedin/callback"));
            ("client_id", env_param (LINKEDIN_CLIENT_ID srv));
            ("client_secret", env_param (LINKEDIN_CLIENT_SECRET srv))]
           [("Content-Type", "application/x-www-form-urlencoded")] ;;
       let access_token := td_access_token tokenResponse in
       let expires_in := td_expires_in tokenResponse in
       let expires_at := setSeconds_plus (LocalTZA e) (now e) expires_in in
       let userId := "default_user" in
       execute_upsert srv e userId access_token expires_at ;;;
       ret (res_redirect (tpl (FRONTEND_URL srv) +:+ "/settings?connected=true")))
      (fun error =>
         ret (res_redirect (tpl (FRONTEND_URL srv) +:+ "/settings?error=true"))).

(** [GET /api/status] *)
Definition status (srv : server) (e : env) : M response :=
  try_catch
    (rows <- execute_select srv e "default_user" ;;
     ret (res_json (JObj [("isConnected", JBool (0 <? length rows)%nat)])))
    (fun error => ret (Json 500 (JObj [("isConnected", JBool false)]))).

(** [post.specificContent[key]]: indexing throws when [specificContent]
    is [undefined]. *)
Definition index_specificContent (post : share) (key : string)
    : M (option share_content) :=
  match specificContent post with
  | Some obj => ret (assoc key obj)
  | None =>
      throw (TypeError
        "Cannot read properties of undefined (reading 'com.linkedin.ugc.ShareContent')")
  end.

(** The callback of [postsResponse.data.elements.map]. *)
Definition formatPost (post : share) : M json :=
  shareContent <- index_specificContent post "com.linkedin.ugc.ShareContent" ;;
  let commentary := or_default (shareContent ?. shareCommentary ?. text) "" in
  createdDate <- iso_date (created_time post) ;;
  imageUrl <- placeholder_image ;;
  impressions <- floor_random 5000 ;;
  likes <- floor_random 100 ;;
  celebrations <- floor_random 20 ;;
  loves <- floor_random 15 ;;
  insights <- floor_random 25 ;;
  funny <- floor_random 5 ;;
  comments <- floor_random 50 ;;
  shares <- floor_random 10 ;;
  ret (JObj (js_field "id" (share_id post) ++
    [("content", JStr commentary);
     ("imageUrl", JStr imageUrl);
     ("impressions", JNum (impressions + 500));
     ("reactions", JObj [("likes", JNum likes);
                         ("celebrations", JNum celebrations);
                         ("loves", JNum loves);
                         ("insights", JNum insights);
                         ("funny", JNum funny)]);
     ("comments", JNum comments);
     ("shares", JNum shares);
     ("date", JStr createdDate)])).

Definition permission_message : string :=
  "Permission Denied. Ensure your LinkedIn App has been approved for the " +:+ String (ascii_of_nat 34) "Community Management API" +:+ String (ascii_of_nat 34) " product to read posts.".

(** [error.response ? JSON.stringify(error.response.data) : error.message];
    the body of a reply is kept as its JSON text. *)
Definition errorMessage (error : js_error) : string :=
  match err_response error with
  | Some (_, body) => body
  | None => err_message error
  end.

(** [GET /api/posts] *)
Definition posts (srv : server) (e : env) : M response :=
  try_catch
    (rows <- execute_select srv e "default_user" ;;
     match rows with
     | [] =>
         ret (Json 401 (message "Not authenticated. Please connect to LinkedIn."))
     | row0 :: _ =>
         let accessToken := access_token row0 in
         profileResponse <-
           axios_get (me_endpoint e) "https://api.linkedin.com/v2/me"
             [("Authorization", "Bearer " +:+ accessToken)] ;;
         let userUrn := tpl (profile_id profileResponse) in
         let postsApiUrl :=
           "https://api.linkedin.com/v2/shares?q=owners&owners=urn:li:person:"
           +:+ userUrn +:+ "&count=15" in
         postsResponse <-
           axios_get (shares_endpoint e) postsApiUrl
             [("Authorization", "Bearer " +:+ accessToken);
              ("X-Restli-Protocol-Version", "2.0.0")] ;;
         match postsResponse with
         | None =>
             throw (TypeError "Cannot read properties of undefined (reading 'map')")
         | Some elements =>
             formattedPosts <- js_map formatPost elements ;;
             ret (res_json (JArr formattedPosts))
         end
     end)
    (fun error =>
       match err_response error with
       | Some (status, _) =>
           if status =? 403 then ret (Json 403 (message permission_message))
           else ret (Json 500 (message
                  ("Failed to fetch posts. Server error: " +:+ errorMessage error)))
       | None =>
           ret (Json 500 (message
                  ("Failed to fetch posts. Server error: " +:+ errorMessage error)))
       end).

(** [testDbConnection] *)
Definition testDbConnection (db : database) : bool := getConnection_resolves db.

(** The module body up to [startServer]: two configuration tests that end
    the process, then the connection test that decides whether the server
    listens.  [PORT] is [process.env.PORT || 10000]. *)
Definition startServer (p : process_env) (db : database) : startup :=
  if negb (truthy (env_param (env_FRONTEND_URL p))) then ProcessExit 1
  else if negb (createPool_returns db) then ProcessExit 1
  else
    let isDbConnected := testDbConnection db in
    if negb isDbConnected then NotListening
    else Listening (or_default (env_PORT p) "10000") (Some "0.0.0.0")
           (handlers_config p true) false.

End Rev3.

(** ** Vocabulary of the specification *)

(** The two landing pages of the front end. *)
Definition failure_page (srv : server) : string :=
  tpl (FRONTEND_URL srv) +:+ "/settings?error=true".

Definition success_page (srv : server) : string :=
  tpl (FRONTEND_URL srv) +:+ "/settings?connected=true".

(** A TokenRecord exists for the single logical user. *)
Definition connected (t : linkedin_auth) : bool :=
  match t !! "default_user" with
  | Some _ => true
  | None => false
  end.

(** The outbound calls recorded in a world. *)
Definition outbound_calls (w : world) : list event :=
  List.filter is_outbound (trace w).

Definition store_writes (w : world) : list event :=
  List.filter is_store_write (trace w).

(** The key a database statement was issued for. *)
Definition db_key (ev : event) : option string :=
  match ev with
  | DbSelect u | DbUpsert u _ => Some u
  | _ => None
  end.

(** The reply is an authorization-denied one (HTTP 403). *)
Definition denied {A} (r : http_reply A) : bool :=
  match r with
  | HttpError status _ => status =? 403
  | _ => false
  end.

Definition is_2xx {A} (r : http_reply A) : bool :=
  match r with
  | Http2xx _ => true
  | _ => false
  end.

(** [needle] occurs in [hay]. *)
Definition mentions (needle hay : string) : bool :=
  match String.index 0 needle hay with
  | Some _ => true
  | None => false
  end.

(** The record a callback request leaves in the table when its exchange
    succeeds: a code was supplied, the provider answered 2xx with a token,
    and the statement reached the database. *)
Definition exchanged (srv : server) (e : env) (code : qval) : option TokenRecord :=
  if truthy code && dbPool srv && db_up e then
    match token_endpoint e with
    | Http2xx d =>
        match td_access_token d with
        | Some tok =>
            Some {| access_token := tok;
                    expires_at :=
                      setSeconds_plus (LocalTZA e) (now e) (td_expires_in d) |}
        | None => None
        end
    | _ => None
    end
  else None.

(** A sequence of callback requests, each with what it observes. *)
Record call : Type := Call { call_env : env; call_code : qval }.

Fixpoint run_callbacks (callback : server -> env -> qval -> M response)
    (srv : server) (calls : list call) (w : world) : world :=
  match calls with
  | [] => w
  | c :: rest =>
      run_callbacks callback srv rest
        (snd (callback srv (call_env c) (call_code c) w))
  end.

(** The record of the most recent successful exchange of a sequence. *)
Fixpoint last_exchanged (srv : server) (calls : list call) : option TokenRecord :=
  match calls with
  | [] => None
  | c :: rest =>
      match last_exchanged srv rest with
      | Some r => Some r
      | None => exchanged srv (call_env c) (call_code c)
      end
  end.

(** The fields of a NormalizedPost and of its [reactions] record. *)
Definition NormalizedPost_fields : list string :=
  ["id"; "content"; "imageUrl"; "impressions"; "reactions"; "comments";
   "shares"; "date"].

Definition reaction_fields : list string :=
  ["likes"; "celebrations"; "loves"; "insights"; "funny"].

(** The property is present and neither [null] nor [undefined]. *)
Definition defined (v : option json) : bool :=
  match v with
  | None | Some JNull => false
  | Some _ => true
  end.

Definition complete_shape (j : json) : bool :=
  forallb (fun k => defined (get_field k j)) NormalizedPost_fields &&
  match get_field "reactions" j with
  | Some r => forallb (fun k => defined (get_field k r)) reaction_fields
  | None => false
  end.

(** The [reactions] record with every count at zero. *)
Definition zero_reactions : json :=
  JObj [("likes", JNum 0); ("celebrations", JNum 0); ("loves", JNum 0);
        ("insights", JNum 0); ("funny", JNum 0)].

(** The numeric field [key] of [j] lies in [[lo, hi)]. *)
Definition field_in_range (key : string) (lo hi : Z) (j : json) : Prop :=
  exists n, get_field key j = Some (JNum n) /\ lo <= n < hi.

(** The first request sent to the token endpoint and its declared content
    type. *)
Definition token_request (w : world) : option event := head (outbound_calls w).

Definition content_type (ev : event) : option string :=
  match ev with
  | AxiosPost _ _ headers => assoc "Content-Type" headers
  | _ => None
  end.

Definition request_param (key : string) (ev : event) : option qval :=
  match ev with
  | AxiosPost _ params _ => assoc key params
  | _ => None
  end.

Definition form_urlencoded : string := "application/x-www-form-urlencoded".

(** ** Sample configuration and inputs *)

Definition srv0 : server :=
  {| FRONTEND_URL := Some "https://app.example.com";
     BACKEND_URL := Some "https://api.example.com";
     LINKEDIN_CLIENT_ID := Some "client-id";
     LINKEDIN_CLIENT_SECRET := Some "client-secret";
     dbPool := true |}.

(** The same deployment when the pool could not be created. *)
Definition srv_no_pool : server :=
  {| FRONTEND_URL := Some "https://app.example.com";
     BACKEND_URL := Some "https://api.example.com";
     LINKEDIN_CLIENT_ID := Some "client-id";
     LINKEDIN_CLIENT_SECRET := Some "client-secret";
     dbPool := false |}.

Definition post1 : rest_post :=
  {| post_id := Some (JStr "p1"); commentary := Some "hi"; content := None;
     createdAt := 1717243200000 |}.

Definition share1 : share :=
  {| share_id := Some (JStr "p1");
     specificContent :=
       Some [("com.linkedin.ugc.ShareContent",
              {| shareCommentary := Some {| text := Some "hi" |} |})];
     created_time := 1717243200000 |}.

Definition env0 : env :=
  {| now := 1717243200000;
     LocalTZA := fun _ _ => 0;
     db_up := true;
     token_endpoint :=
       Http2xx {| td_access_token := Some "token-1"; td_expires_in := Some 5184000 |};
     me_endpoint := Http2xx {| profile_id := Some "abc" |};
     posts_endpoint := Http2xx (Some [post1]);
     shares_endpoint := Http2xx (Some [share1]) |}.

(** A later request: another token, a provider that refuses the listing. *)
Definition env1 : env :=
  {| now := 1717329600000;
     LocalTZA := fun _ _ => 0;
     db_up := true;
     token_endpoint :=
       Http2xx {| td_access_token := Some "token-2"; td_expires_in := Some 3600 |};
     me_endpoint := Http2xx {| profile_id := Some "abc" |};
     posts_endpoint := HttpError 403 "{message: ACCESS_DENIED}";
     shares_endpoint := HttpError 403 "{message: ACCESS_DENIED}" |}.

(** A request during which the provider's token endpoint refuses the code. *)
Definition env_refused : env :=
  {| now := 1717416000000;
     LocalTZA := fun _ _ => 0;
     db_up := true;
     token_endpoint := HttpError 400 "{error: invalid_request}";
     me_endpoint := NetworkError "ECONNRESET";
     posts_endpoint := NetworkError "ECONNRESET";
     shares_endpoint := NetworkError "ECONNRESET" |}.

(** A request during which the database does not answer. *)
Definition env_db_down : env :=
  {| now := 1717416000000;
     LocalTZA := fun _ _ => 0;
     db_up := false;
     token_endpoint :=
       Http2xx {| td_access_token := Some "token-3"; td_expires_in := Some 3600 |};
     me_endpoint := Http2xx {| profile_id := Some "abc" |};
     posts_endpoint := Http2xx (Some [post1]);
     shares_endpoint := Http2xx (Some [share1]) |}.

Definition w_empty : world := {| table := ∅; rng := [2 ^ 52; 1]; trace := [] |}.

(** A world whose next nine random draws are all [0.5]. *)
Definition w_half : world :=
  {| table := ∅; rng := replicate 9 (2 ^ 52); trace := [] |}.

Definition w_connected : world :=
  {| table := {[ "default_user" :=
                   {| access_token := "token-0"; expires_at := Some 0 |} ]};
     rng := [];
     trace := [] |}.

(** The three revisions side by side. *)
Inductive revision : Type := R1 | R2 | R3.

Definition callback_of (rev : revision) : server -> env -> qval -> M response :=
  match rev with
  | R1 => Rev1.callback
  | R2 => Rev2.callback
  | R3 => Rev3.callback
  end.

Definition status_of (rev : revision) : server -> env -> M response :=
  match rev with
  | R1 => Rev1.status
  | R2 => Rev2.status
  | R3 => Rev3.status
  end.

Definition posts_of (rev : revision) : server -> env -> M response :=
  match rev with
  | R1 => Rev1.posts
  | R2 => Rev2.posts
  | R3 => Rev3.posts
  end.

Definition begin_authorization_of (rev : revision) : server -> response :=
  match rev with
  | R1 => Rev1.begin_authorization
  | R2 => Rev2.begin_authorization
  | R3 => Rev3.begin_authorization
  end.

Definition permission_message_of (rev : revision) : string :=
  match rev with
  | R1 => Rev1.permission_message
  | R2 => Rev2.permission_message
  | R3 => Rev3.permission_message
  end.

(** The reply of the listing endpoint the revision calls. *)
Definition listing_denied (rev : revision) (e : env) : bool :=
  match rev with
  | R3 => denied (shares_endpoint e)
  | _ => denied (posts_endpoint e)
  end.

(** Revision 2 running without a pool: its handlers answer before they
    look at the request. *)
Definition without_pool (rev : revision) (srv : server) : bool :=
  match rev with
  | R2 => negb (dbPool srv)
  | _ => false
  end.

Definition database_failed_page : response :=
  Send 500 "Server error: Database connection failed.".

(** What a callback request that passes the pool test answers, and what it
    leaves in the table. *)
Definition callback_answer (srv : server) (e : env) (code : qval) : response :=
  res_redirect
    match exchanged srv e code with
    | Some _ => success_page srv
    | None => failure_page srv
    end.

Definition callback_table (srv : server) (e : env) (code : qval)
    (t : linkedin_auth) : linkedin_auth :=
  match exchanged srv e code with
  | Some r => <["default_user" := r]> t
  | None => t
  end.

(** The status answers: the lookup ran, and the lookup threw. *)
Definition status_answer (isConnected : bool) : response :=
  res_json (JObj [("isConnected", JBool isConnected)]).

Definition status_unknown (rev : revision) : response :=
  match rev with
  | R3 => Json 500 (JObj [("isConnected", JBool false)])
  | _ => Json 500 (JObj [("isConnected", JBool false);
                         ("message", JStr "Could not check status.")])
  end.

Definition unauthenticated : response :=
  Json 401 (message "Not authenticated. Please connect to LinkedIn.").

(** The events a handler added to the trace. *)
Definition since (w w' : world) : list event :=
  drop (length (trace w)) (trace w').

(** Every database statement among [evs] is keyed on the single user. *)
Definition keyed_on_default_user (evs : list event) : Prop :=
  Forall (fun ev => db_key ev = None \/ db_key ev = Some "default_user") evs.

(** The callback address the service announces to the provider. *)
Definition callback_address (srv : server) : string :=
  tpl (BACKEND_URL srv) +:+ "/auth/linkedin/callback".

(** The content type the revision declares on the token request. *)
Definition declared_content_type (rev : revision) : string :=
  match rev with
  | R3 => "application/x-www-form-urlencoded"
  | _ => "application/x-form-urlencoded"
  end.

(** A computation that leaves the table and the trace as they are. *)
Definition quiet {A} (m : M A) : Prop :=
  forall w, table (snd (m w)) = table w /\ trace (snd (m w)) = trace w.

(** A sequence of requests: two exchanges that succeed, and around them
    requests that fail in each possible way. *)
Definition calls0 : list call :=
  [ {| call_env := env0; call_code := QStr "abc123" |};
    {| call_env := env_refused; call_code := QStr "expired" |};
    {| call_env := env1; call_code := QStr "def456" |};
    {| call_env := env0; call_code := QUndefined |};
    {| call_env := env_db_down; call_code := QStr "ghi789" |} ].

(** ** Further vocabulary *)

(** The outbound calls a handler added to the trace. *)
Definition outbound_since (w w' : world) : list event :=
  List.filter is_outbound (since w w').

(** The token request of a revision for a code. *)
Definition token_exchange_call (rev : revision) (srv : server) (code : qval) : event :=
  AxiosPost "https://www.linkedin.com/oauth/v2/accessToken"
    [("grant_type", QStr "authorization_code");
     ("code", code);
     ("redirect_uri", QStr (callback_address srv));
     ("client_id", env_param (LINKEDIN_CLIENT_ID srv));
     ("client_secret", env_param (LINKEDIN_CLIENT_SECRET srv))]
    [("Content-Type", declared_content_type rev)].

(** Every character of [s] satisfies [p]. *)
Definition string_forall (p : ascii -> bool) (s : string) : bool :=
  forallb p (String.list_ascii_of_string s).

(** The characters [encodeURIComponent] can produce. *)
Definition url_safe (c : ascii) : bool := unreserved c || Ascii.eqb c "%"%char.

(** The value of a hexadecimal digit. *)
Definition unhex (c : ascii) : N :=
  match String.index 0 (String c EmptyString) "0123456789ABCDEF" with
  | Some i => N.of_nat i
  | None => 0%N
  end.

(** The post can be normalized: its time stamp is a valid date (and, in
    revision 3, it has a [specificContent] object). *)
Definition valid_time (t : Z) : bool :=
  match TimeClip t with
  | Some _ => true
  | None => false
  end.

Definition normalizable_post (p : rest_post) : bool := valid_time (createdAt p).

Definition normalizable_share (s : share) : bool :=
  match specificContent s with
  | Some _ => valid_time (created_time s)
  | None => false
  end.

(** The [id]s of the listing the revision reads, in the provider's order
    ([None] for an element without one). *)
Definition listing_ids (rev : revision) (e : env) : option (list (option json)) :=
  match rev with
  | R3 =>
      match shares_endpoint e with
      | Http2xx (Some elements) => Some (map share_id elements)
      | _ => None
      end
  | _ =>
      match posts_endpoint e with
      | Http2xx (Some elements) => Some (map post_id elements)
      | _ => None
      end
  end.

(** The call is a GET on the provider's API that presents [token] as
    bearer. *)
Definition api_call_with (token : string) (ev : event) : Prop :=
  exists url headers,
    ev = AxiosGet url headers
    /\ String.prefix "https://api.linkedin.com/" url = true
    /\ assoc "Authorization" headers = Some ("Bearer " +:+ token).

(** A computation whose result and random draws depend on the random
    stream alone, not on the table or on what was done before. *)
Definition reads_only_rng {A} (m : M A) : Prop :=
  forall w1 w2,
    rng w1 = rng w2 ->
    fst (m w1) = fst (m w2) /\ rng (snd (m w1)) = rng (snd (m w2)).

(** The same world with another expiry on the user's record. *)
Definition with_expiry (exp : option Z) (w : world) : world :=
  {| table :=
       match table w !! "default_user" with
       | Some r =>
           <["default_user" := {| access_token := access_token r; expires_at := exp |}]>
             (table w)
       | None => table w
       end;
     rng := rng w;
     trace := trace w |}.

(** The fields of a NormalizedPost that the handler computes itself: all
    but [id], which it copies from the provider's element. *)
Definition computed_fields : list string :=
  ["content"; "imageUrl"; "impressions"; "reactions"; "comments"; "shares";
   "date"].

Definition complete_but_id (j : json) : bool :=
  forallb (fun k => defined (get_field k j)) computed_fields &&
  match get_field "reactions" j with
  | Some r => forallb (fun k => defined (get_field k r)) reaction_fields
  | None => false
  end.

(** A reply that is neither a success nor an authorization-denied one. *)
Definition upstream_failure {A} (r : http_reply A) : bool :=
  match r with
  | Http2xx _ => false
  | HttpError status _ => negb (status =? 403)
  | NetworkError _ => true
  end.

(** The diagnostic axios attaches to a failed reply, as revision 3 prints
    it. *)
Definition diagnostic {A} (r : http_reply A) : string :=
  match r with
  | Http2xx _ => ""
  | HttpError _ body => body
  | NetworkError msg => msg
  end.

(** The listing the revision reads was delivered and every element of it
    can be normalized. *)
Definition listing_normalizable (rev : revision) (e : env) : bool :=
  match rev with
  | R3 =>
      match shares_endpoint e with
      | Http2xx (Some elements) => forallb normalizable_share elements
      | _ => false
      end
  | _ =>
      match posts_endpoint e with
      | Http2xx (Some elements) => forallb normalizable_post elements
      | _ => false
      end
  end.

(** The provider failed, other than by denying authorization: at the
    identity call, or at the listing call that follows a successful one.
    [upstream_diagnostic] is the diagnostic of the call that failed. *)
Definition upstream_failed (rev : revision) (e : env) : bool :=
  match me_endpoint e with
  | Http2xx _ =>
      match rev with
      | R3 => upstream_failure (shares_endpoint e)
      | _ => upstream_failure (posts_endpoint e)
      end
  | r => upstream_failure r
  end.

Definition upstream_diagnostic (rev : revision) (e : env) : string :=
  match me_endpoint e with
  | Http2xx _ =>
      match rev with
      | R3 => diagnostic (shares_endpoint e)
      | _ => diagnostic (posts_endpoint e)
      end
  | r => diagnostic r
  end.

(** The 500 answer of the posts handler for a diagnostic: a fixed message
    in revisions 1 and 2, the diagnostic itself in revision 3. *)
Definition upstream_error (rev : revision) (diag : string) : response :=
  match rev with
  | R3 => Json 500 (message ("Failed to fetch posts. Server error: " +:+ diag))
  | _ => Json 500 (message "Failed to fetch posts from LinkedIn API.")
  end.

(** [pad width n] has exactly [width] characters, none of them ['T']. *)
Definition padded_to (width : nat) (n : Z) : bool :=
  Nat.eqb (String.length (pad width n)) width
  && string_forall (fun c => negb (Ascii.eqb c "T"%char)) (pad width n).

(** The status code of an answer. *)
Definition status_code (r : response) : Z :=
  match r with
  | Redirect status _ | Json status _ | Send status _ => status
  end.

(** ** Further sample inputs *)

Definition penv0 : process_env :=
  {| env_FRONTEND_URL := Some "https://app.example.com";
     env_BACKEND_URL := Some "https://api.example.com";
     env_LINKEDIN_CLIENT_ID := Some "client-id";
     env_LINKEDIN_CLIENT_SECRET := Some "client-secret";
     env_PORT := None |}.

Definition db_ready : database :=
  {| createPool_returns := true; getConnection_resolves := true |}.

Definition db_refusing : database :=
  {| createPool_returns := true; getConnection_resolves := false |}.

(** A post whose time stamp lies beyond the range of [Date]. *)
Definition post_bad_time : rest_post :=
  {| post_id := Some (JStr "p2"); commentary := None; content := None;
     createdAt := 8640000000000001 |}.

(** A share as [/v2/shares] lists it, without [specificContent]. *)
Definition share_plain : share :=
  {| share_id := Some (JStr "s2"); specificContent := None;
     created_time := 1717243200000 |}.

Definition env_bad_listing : env :=
  {| now := 1717243200000;
     LocalTZA := fun _ _ => 0;
     db_up := true;
     token_endpoint := NetworkError "ETIMEDOUT";
     me_endpoint := Http2xx {| profile_id := Some "abc" |};
     posts_endpoint := Http2xx (Some [post1; post_bad_time]);
     shares_endpoint := Http2xx (Some [share1; share_plain]) |}.

Definition env_upstream_down : env :=
  {| now := 1717243200000;
     LocalTZA := fun _ _ => 0;
     db_up := true;
     token_endpoint := NetworkError "ETIMEDOUT";
     me_endpoint := HttpError 401 "{message: token expired}";
     posts_endpoint := NetworkError "ETIMEDOUT";
     shares_endpoint := NetworkError "ETIMEDOUT" |}.

(** A post and a share that carry neither commentary nor media. *)
Definition post_bare : rest_post :=
  {| post_id := Some (JStr "p3"); commentary := None; content := None;
     createdAt := 1717243200000 |}.

Definition share_bare : share :=
  {| share_id := Some (JStr "s3"); specificContent := Some [];
     created_time := 1717243200000 |}.

(** An element of a listing that carries no [id]. *)
Definition post_without_id : rest_post :=
  {| post_id := None; commentary := Some "hi"; content := None;
     createdAt := 1717243200000 |}.

(** A token reply that carries a token and no [expires_in]. *)
Definition env_no_lifetime : env :=
  {| now := 1717243200000;
     LocalTZA := fun _ _ => 0;
     db_up := true;
     token_endpoint :=
       Http2xx {| td_access_token := Some "token-4"; td_expires_in := None |};
     me_endpoint := Http2xx {| profile_id := Some "abc" |};
     posts_endpoint := Http2xx (Some [post1]);
     shares_endpoint := Http2xx (Some [share1]) |}.

(** Central European time around the change of 27 October 2024, 01:00 UTC,
    from two hours ahead of UTC to one. *)
Definition tza_cet_autumn_2024 (t : Z) (isUTC : bool) : Z :=
  if isUTC then (if t <? 1729990800000 then 7200000 else 3600000)
  else (if t <? 1729998000000 then 7200000 else 3600000).

(** * Properties *)

(** ** The built-ins on sample values *)

Example toISOString_sample :
  toISOString 1717243200123 = "2024-06-01T12:00:00.123Z".
Proof. vm_compute. reflexivity. Qed.

Example toISOString_negative :
  split_T_head (toISOString (-1)) = "1969-12-31".
Proof. vm_compute. reflexivity. Qed.

Example encodeURIComponent_sample :
  encodeURIComponent "https://api.example.com/auth/linkedin/callback"
  = "https%3A%2F%2Fapi.example.com%2Fauth%2Flinkedin%2Fcallback".
Proof. vm_compute. reflexivity. Qed.


(** ** Running a handler *)

Ltac run_handler :=
  cbv beta iota zeta delta
    [Rev1.callback Rev2.callback Rev3.callback
     Rev1.status Rev2.status Rev3.status
     Rev1.posts Rev2.posts Rev3.posts
     bind try_catch ret throw emit axios_post axios_get settle
     execute_upsert execute_select exchanged
     res_status_redirect res_redirect res_json
     failure_page success_page
     no_pool undefined_parameter db_unreachable TypeError];
  cbn [fst snd table rng trace negb andb err_response err_message
       td_access_token td_expires_in].

Lemma Rev1_callback_run srv e code w :
  fst (Rev1.callback srv e code w) = Return (callback_answer srv e code)
  /\ table (snd (Rev1.callback srv e code w)) = callback_table srv e code (table w).
Proof.
  unfold callback_answer, callback_table. run_handler.
  destruct (truthy code); [|split; reflexivity].
  destruct (token_endpoint e) as [[[tok|] n]| |];
    destruct (dbPool srv); destruct (db_up e); split; reflexivity.
Qed.

Lemma Rev3_callback_run srv e code w :
  fst (Rev3.callback srv e code w) = Return (callback_answer srv e code)
  /\ table (snd (Rev3.callback srv e code w)) = callback_table srv e code (table w).
Proof.
  unfold callback_answer, callback_table. run_handler.
  destruct (truthy code); [|split; reflexivity].
  destruct (token_endpoint e) as [[[tok|] n]| |];
    destruct (dbPool srv); destruct (db_up e); split; reflexivity.
Qed.

(** Revision 2 answers with a plain 500 page when it has no pool. *)
Lemma Rev2_callback_run srv e code w :
  fst (Rev2.callback srv e code w)
  = Return (if dbPool srv then callback_answer srv e code
            else database_failed_page)
  /\ table (snd (Rev2.callback srv e code w)) = callback_table srv e code (table w).
Proof.
  unfold callback_answer, callback_table, database_failed_page. run_handler.
  destruct (dbPool srv).
  - destruct (truthy code); [|split; reflexivity].
    destruct (token_endpoint e) as [[[tok|] n]| |];
      destruct (db_up e); split; reflexivity.
  - destruct (truthy code); split; reflexivity.
Qed.

(** A request without a code leaves the world as it found it. *)
Lemma falsy_code code :
  code = QUndefined \/ code = QStr "" -> truthy code = false.
Proof. intros [-> | ->]; reflexivity. Qed.

Lemma exchanged_falsy srv e code : truthy code = false -> exchanged srv e code = None.
Proof. unfold exchanged. intros ->. reflexivity. Qed.

(** ** The table after a sequence of callback requests *)

Section Sequences.

Variable callback : server -> env -> qval -> M response.
Variable srv : server.
Hypothesis callback_writes :
  forall e code w,
    table (snd (callback srv e code w)) = callback_table srv e code (table w).

(** The user's record is that of the last exchange that succeeded, or the
    one the table started with. *)
Lemma run_callbacks_lookup calls : forall w,
  table (run_callbacks callback srv calls w) !! "default_user"
  = match last_exchanged srv calls with
    | Some r => Some r
    | None => table w !! "default_user"
    end.
Proof.
  induction calls as [|c rest IH]; intros w; simpl; [reflexivity|].
  rewrite IH, callback_writes. unfold callback_table.
  destruct (last_exchanged srv rest) as [r|]; [reflexivity|].
  destruct (exchanged srv (call_env c) (call_code c)) as [r|]; [|reflexivity].
  apply lookup_insert_eq.
Qed.

(** Records of other users are never touched. *)
Lemma run_callbacks_other calls : forall w u,
  u <> "default_user" ->
  table (run_callbacks callback srv calls w) !! u = table w !! u.
Proof.
  induction calls as [|c rest IH]; intros w u Hu; simpl; [reflexivity|].
  rewrite IH, callback_writes by assumption. unfold callback_table.
  destruct (exchanged srv (call_env c) (call_code c)) as [r|]; [|reflexivity].
  apply lookup_insert_ne. congruence.
Qed.

End Sequences.

(** ** Completing an authorization *)

Lemma callback_of_table rev srv e code w :
  table (snd (callback_of rev srv e code w)) = callback_table srv e code (table w).
Proof.
  destruct rev; simpl.
  - apply Rev1_callback_run.
  - apply Rev2_callback_run.
  - apply Rev3_callback_run.
Qed.

Lemma callback_of_answer rev srv e code w :
  fst (callback_of rev srv e code w)
  = Return (if without_pool rev srv then database_failed_page
            else callback_answer srv e code).
Proof.
  destruct rev; simpl.
  - apply Rev1_callback_run.
  - destruct (Rev2_callback_run srv e code w) as [-> _].
    destruct (dbPool srv); reflexivity.
  - apply Rev3_callback_run.
Qed.

Lemma append_cancel_l (p a b : string) : p +:+ a = p +:+ b -> a = b.
Proof.
  induction p as [|c p IH]; simpl; intros H; [assumption|].
  injection H as H. auto.
Qed.

(** The callback answers with the success page exactly when the exchange
    succeeded. *)
Lemma success_page_iff_exchanged rev srv e code w :
  fst (callback_of rev srv e code w) = Return (res_redirect (success_page srv))
  <-> is_Some (exchanged srv e code).
Proof.
  rewrite callback_of_answer. unfold callback_answer, database_failed_page.
  split.
  - destruct (without_pool rev srv); [discriminate|].
    destruct (exchanged srv e code) as [r|]; [eauto|].
    unfold res_redirect, success_page, failure_page. intros H.
    injection H as H. apply append_cancel_l in H. discriminate.
  - intros [r Hr].
    assert (Hpool : without_pool rev srv = false).
    { unfold exchanged in Hr. destruct rev; try reflexivity. simpl.
      destruct (truthy code), (dbPool srv); simpl in *; congruence. }
    rewrite Hpool, Hr. reflexivity.
Qed.

(** C1: after any sequence of callback requests that contains a successful
    exchange, the statement [SELECT ... WHERE user_id = 'default_user']
    finds exactly one row, whose token and expiry are those of the most
    recent successful exchange; the rows of every other key are the ones
    the table started with (each exchange replaces, none appends).  This
    holds in the three revisions. *)
Theorem C1_single_record_of_last_exchange rev srv calls w r :
  last_exchanged srv calls = Some r ->
  rows_where (table (run_callbacks (callback_of rev) srv calls w)) "default_user"
  = [r]
  /\ forall u, u <> "default_user" ->
       rows_where (table (run_callbacks (callback_of rev) srv calls w)) u
       = rows_where (table w) u.
Proof.
  intros Hlast. unfold rows_where. split.
  - rewrite (run_callbacks_lookup (callback_of rev) srv
               (callback_of_table rev srv)), Hlast.
    reflexivity.
  - intros u Hu.
    rewrite (run_callbacks_other (callback_of rev) srv
               (callback_of_table rev srv)) by assumption.
    reflexivity.
Qed.

Lemma C1_witness :
  rows_where (table (run_callbacks (callback_of R2) srv0 calls0 w_connected))
    "default_user"
  = [ {| access_token := "token-2"; expires_at := Some 1717333200000 |} ]
  /\ forall u, u <> "default_user" ->
       rows_where (table (run_callbacks (callback_of R2) srv0 calls0 w_connected)) u
       = rows_where (table w_connected) u.
Proof.
  apply (C1_single_record_of_last_exchange R2 srv0 calls0 w_connected).
  vm_compute. reflexivity.
Defined.

(** Without any successful exchange the user's rows are left as they were:
    none when the table had none. *)
Lemma no_exchange_no_record rev srv calls w :
  last_exchanged srv calls = None ->
  rows_where (table (run_callbacks (callback_of rev) srv calls w)) "default_user"
  = rows_where (table w) "default_user".
Proof.
  intros Hlast. unfold rows_where.
  rewrite (run_callbacks_lookup (callback_of rev) srv
             (callback_of_table rev srv)), Hlast.
  reflexivity.
Qed.

(** C2, as amended: a callback request whose [code] is absent or empty
    leaves the world as it found it (no statement reaches the table, no
    request leaves the process) and is answered with a redirect to the
    failure page, except in revision 2 running without a pool, which
    answers with its 500 page, the world equally untouched. *)
Theorem C2_missing_code rev srv e code w :
  code = QUndefined \/ code = QStr "" ->
  callback_of rev srv e code w
  = (Return (if without_pool rev srv then database_failed_page
             else res_redirect (failure_page srv)),
     w).
Proof.
  intros Hcode. apply falsy_code in Hcode.
  destruct rev; simpl; run_handler; rewrite Hcode; simpl;
    try reflexivity.
  destruct (dbPool srv); reflexivity.
Qed.

(** In terms of the trace: no statement was written, no request sent. *)
Lemma missing_code_no_effect rev srv e code w :
  code = QUndefined \/ code = QStr "" ->
  table (snd (callback_of rev srv e code w)) = table w
  /\ store_writes (snd (callback_of rev srv e code w)) = store_writes w
  /\ outbound_calls (snd (callback_of rev srv e code w)) = outbound_calls w.
Proof.
  intros Hcode. apply falsy_code in Hcode.
  assert (Hw : snd (callback_of rev srv e code w) = w).
  { destruct rev; simpl; run_handler; rewrite Hcode; simpl; try reflexivity.
    destruct (dbPool srv); reflexivity. }
  rewrite Hw. repeat split.
Qed.

Lemma C2_witness :
  callback_of R1 srv0 env0 (QStr "") w_connected
  = (Return (res_redirect "https://app.example.com/settings?error=true"),
     w_connected).
Proof.
  apply (C2_missing_code R1 srv0 env0 (QStr "") w_connected).
  right. reflexivity.
Defined.

(** Revision 2 without a pool answers a request that carries no code with
    a 500 page and not with a redirect. *)
Lemma C2_counterexample :
  fst (Rev2.callback srv_no_pool env0 QUndefined w_empty)
  = Return (Send 500 "Server error: Database connection failed.")
  /\ forall status location,
       fst (Rev2.callback srv_no_pool env0 QUndefined w_empty)
       <> Return (Redirect status location).
Proof. split; [reflexivity|]. intros status location. discriminate. Qed.

(** C9, as amended: when the exchange does not succeed (no code, network
    error, non-2xx reply, 2xx reply without a token, database or pool
    unavailable), the callback answers with a redirect to the failure page
    of the configuration, except in revision 2 running without a pool,
    which answers with its fixed 500 page.  Either answer is determined by
    the configuration alone: two failing requests get the same answer
    whatever the provider replied to each.  A 2xx reply that carries a
    token is not a failure, whatever its [expires_in]: the token is stored
    with the expiry [setSeconds] makes of it, the Invalid Date included,
    and the user is sent to the success page. *)
Theorem C9_failure_answer rev srv e code w :
  exchanged srv e code = None ->
  fst (callback_of rev srv e code w)
  = Return (if without_pool rev srv then database_failed_page
            else res_redirect (failure_page srv))
  /\ (forall e' code' w',
       exchanged srv e' code' = None ->
       fst (callback_of rev srv e' code' w') = fst (callback_of rev srv e code w))
  /\ forall e' code' w' d tok,
       truthy code' = true ->
       dbPool srv = true ->
       db_up e' = true ->
       token_endpoint e' = Http2xx d ->
       td_access_token d = Some tok ->
       fst (callback_of rev srv e' code' w') = Return (res_redirect (success_page srv))
       /\ table (snd (callback_of rev srv e' code' w')) !! "default_user"
          = Some {| access_token := tok;
                    expires_at :=
                      setSeconds_plus (LocalTZA e') (now e') (td_expires_in d) |}.
Proof.
  intros Hfail. split; [|split].
  - rewrite callback_of_answer. unfold callback_answer. rewrite Hfail. reflexivity.
  - intros e' code' w' Hfail'.
    rewrite !callback_of_answer. unfold callback_answer.
    rewrite Hfail, Hfail'. reflexivity.
  - intros e' code' w' d tok Hcode Hpool Hup Hreply Htok.
    assert (Hex : exchanged srv e' code'
                  = Some {| access_token := tok;
                            expires_at :=
                              setSeconds_plus (LocalTZA e') (now e') (td_expires_in d) |}).
    { unfold exchanged. rewrite Hcode, Hpool, Hup, Hreply, Htok. reflexivity. }
    assert (Hguard : without_pool rev srv = false).
    { destruct rev; simpl; rewrite ?Hpool; reflexivity. }
    split.
    + rewrite callback_of_answer, Hguard. unfold callback_answer.
      rewrite Hex. reflexivity.
    + rewrite callback_of_table. unfold callback_table. rewrite Hex.
      apply lookup_insert_eq.
Qed.

Lemma C9_witness :
  fst (callback_of R3 srv0 env_refused (QStr "expired") w_connected)
  = Return (res_redirect "https://app.example.com/settings?error=true")
  /\ (forall e' code' w',
       exchanged srv0 e' code' = None ->
       fst (callback_of R3 srv0 e' code' w')
       = fst (callback_of R3 srv0 env_refused (QStr "expired") w_connected))
  /\ forall e' code' w' d tok,
       truthy code' = true ->
       dbPool srv0 = true ->
       db_up e' = true ->
       token_endpoint e' = Http2xx d ->
       td_access_token d = Some tok ->
       fst (callback_of R3 srv0 e' code' w') = Return (res_redirect (success_page srv0))
       /\ table (snd (callback_of R3 srv0 e' code' w')) !! "default_user"
          = Some {| access_token := tok;
                    expires_at :=
                      setSeconds_plus (LocalTZA e') (now e') (td_expires_in d) |}.
Proof.
  apply (C9_failure_answer R3 srv0 env_refused (QStr "expired") w_connected).
  reflexivity.
Defined.

(** Revision 2 without a pool answers a request that carries a code with a
    500 page and not with a redirect; and a 2xx reply that carries a token
    and no [expires_in] ends, in revision 1, on the success page with the
    token stored under an invalid expiry. *)
Lemma C9_counterexample :
  (fst (Rev2.callback srv_no_pool env0 (QStr "abc123") w_empty)
   = Return (Send 500 "Server error: Database connection failed.")
   /\ forall status location,
        fst (Rev2.callback srv_no_pool env0 (QStr "abc123") w_empty)
        <> Return (Redirect status location))
  /\ fst (Rev1.callback srv0 env_no_lifetime (QStr "abc123") w_empty)
     = Return (Redirect 302 "https://app.example.com/settings?connected=true")
  /\ table (snd (Rev1.callback srv0 env_no_lifetime (QStr "abc123") w_empty))
       !! "default_user"
     = Some {| access_token := "token-4"; expires_at := None |}.
Proof.
  split; [split; [reflexivity|intros status location; discriminate]|].
  split; vm_compute; reflexivity.
Qed.

(** ** Connection status *)

Lemma status_of_run rev srv e w :
  fst (status_of rev srv e w)
  = Return (if without_pool rev srv then status_answer false
            else if dbPool srv && db_up e then status_answer (connected (table w))
            else status_unknown rev).
Proof.
  destruct rev; simpl; run_handler; unfold status_answer, rows_where, connected;
    destruct (dbPool srv); destruct (db_up e); simpl; try reflexivity;
    destruct (table w !! "default_user"); reflexivity.
Qed.

Lemma connected_iff t :
  connected t = true <-> exists r, t !! "default_user" = Some r.
Proof.
  unfold connected. destruct (t !! "default_user") as [r|]; split.
  - eauto.
  - reflexivity.
  - discriminate.
  - intros [r Hr]. discriminate.
Qed.

(** C3, as amended: when the lookup runs, the status handler reports
    [isConnected: true] if and only if the table holds a record for the
    single user, whatever its [expires_at]; when the lookup throws, it
    answers 500 with [isConnected: false], which no answer of a lookup that
    ran equals; revision 2 running without a pool reports a plain
    [isConnected: false], the answer it gives when no record exists. *)
Theorem C3_status rev srv e w :
  fst (status_of rev srv e w)
  = Return (if without_pool rev srv then status_answer false
            else if dbPool srv && db_up e then status_answer (connected (table w))
            else status_unknown rev)
  /\ (connected (table w) = true <-> exists r, table w !! "default_user" = Some r)
  /\ forall isConnected, status_unknown rev <> status_answer isConnected.
Proof.
  split; [apply status_of_run|]. split; [apply connected_iff|].
  intros b. destruct rev; discriminate.
Qed.

(** The answer does not depend on the expiry stored with the token. *)
Lemma status_ignores_expiry rev srv e t tok exp1 exp2 ra tr :
  fst (status_of rev srv e
         {| table := <["default_user" := {| access_token := tok; expires_at := exp1 |}]> t;
            rng := ra; trace := tr |})
  = fst (status_of rev srv e
         {| table := <["default_user" := {| access_token := tok; expires_at := exp2 |}]> t;
            rng := ra; trace := tr |}).
Proof.
  rewrite !status_of_run. simpl. unfold connected.
  rewrite !lookup_insert_eq. reflexivity.
Qed.

(** Revision 2 without a pool cannot reach the record of [w_connected], and
    answers as it does when the lookup finds no record. *)
Lemma C3_counterexample :
  fst (Rev2.status srv_no_pool env0 w_connected) = Return (status_answer false)
  /\ fst (Rev2.status srv0 env0 w_empty) = Return (status_answer false).
Proof. split; vm_compute; reflexivity. Qed.

(** ** Fetching posts *)

Lemma quiet_ret {A} (a : A) : quiet (ret a).
Proof. intros w. split; reflexivity. Qed.

Lemma quiet_throw {A} (e : js_error) : quiet (throw (A := A) e).
Proof. intros w. split; reflexivity. Qed.

Lemma quiet_bind {A B} (m : M A) (k : A -> M B) :
  quiet m -> (forall a, quiet (k a)) -> quiet (bind m k).
Proof.
  intros Hm Hk w. unfold bind. specialize (Hm w).
  destruct (m w) as [[a|err] w1]; simpl in *; [|assumption].
  destruct Hm as [Hm1 Hm2]. destruct (Hk a w1) as [Ht Htr]. split; congruence.
Qed.

Lemma quiet_floor_random n : quiet (floor_random n).
Proof. intros w. split; reflexivity. Qed.

Lemma quiet_js_map {A B} (f : A -> M B) (l : list A) :
  (forall a, quiet (f a)) -> quiet (js_map f l).
Proof.
  intros Hf. induction l as [|x rest IH]; simpl.
  - apply quiet_ret.
  - apply quiet_bind; [apply Hf|]. intros y.
    apply quiet_bind; [apply IH|]. intros ys. apply quiet_ret.
Qed.

Lemma quiet_or_else v d : quiet d -> quiet (or_else v d).
Proof.
  intros Hd. unfold or_else. destruct v as [s|]; [|assumption].
  destruct (truthy_string s); [apply quiet_ret|assumption].
Qed.

Lemma quiet_iso_date t : quiet (iso_date t).
Proof.
  unfold iso_date. destruct (TimeClip t); [apply quiet_ret|apply quiet_throw].
Qed.

Lemma quiet_placeholder_image : quiet placeholder_image.
Proof.
  unfold placeholder_image. apply quiet_bind; [apply quiet_floor_random|].
  intros n. apply quiet_ret.
Qed.

Ltac quiet_steps :=
  repeat first
    [ apply quiet_ret | apply quiet_throw | apply quiet_floor_random
    | apply quiet_iso_date | apply quiet_placeholder_image
    | apply quiet_or_else
    | apply quiet_bind; [|intros ?] ].

Lemma Rev1_formatPost_quiet post : quiet (Rev1.formatPost post).
Proof. unfold Rev1.formatPost. quiet_steps. Qed.

Lemma Rev2_formatPost_quiet post : quiet (Rev2.formatPost post).
Proof. unfold Rev2.formatPost. quiet_steps. Qed.

Lemma Rev3_formatPost_quiet post : quiet (Rev3.formatPost post).
Proof.
  unfold Rev3.formatPost, Rev3.index_specificContent.
  destruct (specificContent post); quiet_steps.
Qed.

(** Case analysis along a handler: the innermost [match] or [if] of the
    goal whose scrutinee is not itself a case analysis. *)
Ltac next_case :=
  match goal with
  | |- context [match ?x with _ => _ end] =>
      lazymatch x with
      | context [match _ with _ => _ end] => fail
      | _ =>
          let E := fresh "E" in
          destruct x eqn:E;
          cbn [fst snd table rng trace err_response err_message] in *
      end
  end.

(** C4, as amended: when the table holds no record for the single user,
    the posts handler issues no outbound call, whatever the state of the
    database.  When its lookup runs (a pool exists and the database
    answers) it answers 401 "Not authenticated", a status no other run of
    the handler is answered with; when the lookup cannot run it answers
    500. *)
Theorem C4_unauthenticated rev srv e w :
  table w !! "default_user" = None ->
  outbound_calls (snd (posts_of rev srv e w)) = outbound_calls w
  /\ (dbPool srv = true -> db_up e = true ->
      fst (posts_of rev srv e w) = Return unauthenticated)
  /\ (dbPool srv && db_up e = false ->
      exists msg, fst (posts_of rev srv e w) = Return (Json 500 (message msg)))
  /\ forall e' w' body,
       fst (posts_of rev srv e' w') = Return (Json 401 body) ->
       table w' !! "default_user" = None.
Proof.
  intros Hnone. split; [|split; [|split]].
  - destruct rev; simpl; run_handler; unfold rows_where, outbound_calls;
      destruct (dbPool srv); destruct (db_up e); simpl; try reflexivity;
      rewrite Hnone; simpl; rewrite List.filter_app; simpl; apply app_nil_r.
  - intros Hpool Hup.
    destruct rev; simpl; run_handler; unfold rows_where;
      rewrite Hpool, Hup; simpl; rewrite Hnone; reflexivity.
  - destruct rev; simpl; run_handler;
      destruct (dbPool srv); destruct (db_up e); simpl;
      intros Hdown; try discriminate; eexists; reflexivity.
  - intros e' w' body.
    destruct rev; simpl; run_handler; unfold rows_where;
      destruct (dbPool srv); destruct (db_up e'); simpl; try discriminate;
      (destruct (table w' !! "default_user") as [row|]; [|reflexivity]);
      simpl; repeat next_case; discriminate.
Qed.

Lemma C4_witness :
  outbound_calls (snd (posts_of R3 srv0 env0 w_empty)) = outbound_calls w_empty
  /\ (dbPool srv0 = true -> db_up env0 = true ->
      fst (posts_of R3 srv0 env0 w_empty) = Return unauthenticated)
  /\ (dbPool srv0 && db_up env0 = false ->
      exists msg, fst (posts_of R3 srv0 env0 w_empty) = Return (Json 500 (message msg)))
  /\ forall e' w' body,
       fst (posts_of R3 srv0 e' w') = Return (Json 401 body) ->
       table w' !! "default_user" = None.
Proof.
  apply (C4_unauthenticated R3 srv0 env0 w_empty). vm_compute. reflexivity.
Defined.

(** With no record on file, revision 2 without a pool and revision 1 in
    front of a database that does not answer both answer 500, not 401. *)
Lemma C4_counterexample :
  table w_empty !! "default_user" = None
  /\ fst (Rev2.posts srv_no_pool env0 w_empty)
     = Return (Json 500 (message "Server error: Database connection failed."))
  /\ fst (Rev1.posts srv0 env_db_down w_empty)
     = Return (Json 500 (message "Failed to fetch posts from LinkedIn API."))
  /\ fst (Rev2.posts srv_no_pool env0 w_empty) <> Return unauthenticated
  /\ fst (Rev1.posts srv0 env_db_down w_empty) <> Return unauthenticated.
Proof. repeat split; try (vm_compute; reflexivity); discriminate. Qed.

Lemma denied_inv {A} (r : http_reply A) :
  denied r = true -> exists status body, r = HttpError status body /\ (status =? 403) = true.
Proof. destruct r; simpl; intros H; try discriminate. eauto. Qed.

Lemma is_2xx_inv {A} (r : http_reply A) :
  is_2xx r = true -> exists data, r = Http2xx data.
Proof. destruct r; simpl; intros H; try discriminate. eauto. Qed.

(** C5: when a record is on file and the lookup runs, an authorization-denied
    reply (HTTP 403) to the identity call, or to the listing call that
    follows a successful identity call, makes the posts handler answer 403
    with the message that names the "Community Management API" product, and
    so not with the generic 500 answer. *)
Theorem C5_permission_denied rev srv e w row :
  table w !! "default_user" = Some row ->
  dbPool srv = true ->
  db_up e = true ->
  denied (me_endpoint e) = true
  \/ (is_2xx (me_endpoint e) = true /\ listing_denied rev e = true) ->
  fst (posts_of rev srv e w) = Return (Json 403 (message (permission_message_of rev)))
  /\ mentions "Community Management API" (permission_message_of rev) = true.
Proof.
  intros Hrow Hpool Hup Hdenied. split; [|destruct rev; vm_compute; reflexivity].
  destruct Hdenied as [Hme | [Hme Hlist]].
  - apply denied_inv in Hme. destruct Hme as (status & body & Hme & H403).
    destruct rev; simpl; run_handler; unfold rows_where;
      rewrite Hpool, Hup; simpl; rewrite Hrow; simpl;
      rewrite Hme; simpl; rewrite H403; reflexivity.
  - apply is_2xx_inv in Hme. destruct Hme as (p & Hme).
    destruct rev; simpl in Hlist; apply denied_inv in Hlist;
      destruct Hlist as (status & body & Hlist & H403);
      simpl; run_handler; unfold rows_where;
      rewrite Hpool, Hup; simpl; rewrite Hrow; simpl;
      rewrite Hme; simpl; rewrite Hlist; simpl; rewrite H403; reflexivity.
Qed.

Lemma C5_witness :
  fst (posts_of R1 srv0 env1 w_connected)
  = Return (Json 403 (message (permission_message_of R1)))
  /\ mentions "Community Management API" (permission_message_of R1) = true.
Proof.
  apply (C5_permission_denied R1 srv0 env1 w_connected
           {| access_token := "token-0"; expires_at := Some 0 |}).
  - vm_compute. reflexivity.
  - reflexivity.
  - reflexivity.
  - right. split; reflexivity.
Defined.

(** ** One key for every statement *)

Lemma since_app w w' evs : trace w' = (trace w ++ evs)%list -> since w w' = evs.
Proof. unfold since. intros ->. apply drop_app_length. Qed.

Ltac trace_shape :=
  rewrite <- ?List.app_assoc; cbn [app];
  first [ eexists; split; [reflexivity|]
        | exists []; split; [symmetry; apply app_nil_r|] ].

Ltac keyed :=
  unfold keyed_on_default_user;
  repeat (apply List.Forall_cons;
          [first [left; reflexivity | right; reflexivity]|]);
  apply List.Forall_nil.

Lemma callback_of_trace rev srv e code w :
  exists evs,
    trace (snd (callback_of rev srv e code w)) = (trace w ++ evs)%list
    /\ keyed_on_default_user evs.
Proof.
  destruct rev; simpl; run_handler; repeat next_case; trace_shape; keyed.
Qed.

Lemma status_of_trace rev srv e w :
  exists evs,
    trace (snd (status_of rev srv e w)) = (trace w ++ evs)%list
    /\ keyed_on_default_user evs.
Proof.
  destruct rev; simpl; run_handler; repeat next_case; trace_shape; keyed.
Qed.

(** The listing is turned into posts without touching table or trace. *)
Ltac js_map_case Hquiet :=
  match goal with
  | |- context [js_map ?f ?l ?w] =>
      let Hq := fresh "Hq" in
      pose proof (quiet_js_map f l Hquiet w) as Hq;
      destruct (js_map f l w) as [[? | ?] ?];
      cbn [fst snd table rng trace err_response err_message] in *;
      destruct Hq as [_ Hq]
  end.

Lemma posts_of_trace rev srv e w :
  exists evs,
    trace (snd (posts_of rev srv e w)) = (trace w ++ evs)%list
    /\ keyed_on_default_user evs
    /\ forall row,
         table w !! "default_user" = Some row ->
         dbPool srv = true ->
         db_up e = true ->
         exists rest,
           evs = DbSelect "default_user"
                 :: AxiosGet "https://api.linkedin.com/v2/me"
                      [("Authorization", "Bearer " +:+ access_token row)]
                 :: rest.
Proof.
  destruct rev; simpl; run_handler; unfold rows_where;
    destruct (dbPool srv); destruct (db_up e); cbn [negb];
    try (exists []; split; [symmetry; apply app_nil_r|];
         split; [keyed|]; intros; discriminate);
    (destruct (table w !! "default_user") as [row0|];
     cbn [option_list option_rect fst snd table rng trace];
     [|trace_shape; split; [keyed|]; intros; discriminate]);
    repeat first
      [ js_map_case Rev1_formatPost_quiet
      | js_map_case Rev2_formatPost_quiet
      | js_map_case Rev3_formatPost_quiet
      | next_case ];
    try match goal with Hq : trace _ = _ |- _ => rewrite Hq end;
    trace_shape; (split; [keyed|]);
    intros row Hrow _ _; injection Hrow as <-; eexists; reflexivity.
Qed.

(** C10: a successful exchange writes its record under the key
    ['default_user'], and that record is the one the two readers find: the
    status handler then reports connected, and the posts handler selects
    the same key and presents the written token as bearer to the identity
    endpoint.  Every statement the three handlers send to the database is
    keyed on ['default_user']. *)
Theorem C10_same_key rev srv e code w e' r :
  exchanged srv e code = Some r ->
  db_up e' = true ->
  let w' := snd (callback_of rev srv e code w) in
  rows_where (table w') "default_user" = [r]
  /\ fst (status_of rev srv e' w') = Return (status_answer true)
  /\ (exists rest,
        since w' (snd (posts_of rev srv e' w'))
        = DbSelect "default_user"
          :: AxiosGet "https://api.linkedin.com/v2/me"
               [("Authorization", "Bearer " +:+ access_token r)]
          :: rest)
  /\ keyed_on_default_user (since w w')
  /\ keyed_on_default_user (since w' (snd (status_of rev srv e' w')))
  /\ keyed_on_default_user (since w' (snd (posts_of rev srv e' w'))).
Proof.
  intros Hex Hup w'.
  assert (Hpool : dbPool srv = true).
  { unfold exchanged in Hex.
    destruct (truthy code), (dbPool srv); simpl in Hex; congruence. }
  assert (Hguard : without_pool rev srv = false).
  { destruct rev; simpl; rewrite ?Hpool; reflexivity. }
  assert (Hrow : table w' !! "default_user" = Some r).
  { unfold w'. rewrite callback_of_table. unfold callback_table.
    rewrite Hex. apply lookup_insert_eq. }
  destruct (posts_of_trace rev srv e' w') as (evs & Htrace & Hkeyed & Hhead).
  destruct (Hhead r Hrow Hpool Hup) as (rest & Hevs).
  repeat split.
  - unfold rows_where. rewrite Hrow. reflexivity.
  - rewrite status_of_run, Hguard, Hpool, Hup. simpl.
    unfold connected. rewrite Hrow. reflexivity.
  - exists rest. rewrite (since_app _ _ _ Htrace). assumption.
  - destruct (callback_of_trace rev srv e code w) as (evs0 & Htrace0 & Hkeyed0).
    unfold w'. rewrite (since_app _ _ _ Htrace0). assumption.
  - destruct (status_of_trace rev srv e' w') as (evs1 & Htrace1 & Hkeyed1).
    rewrite (since_app _ _ _ Htrace1). assumption.
  - rewrite (since_app _ _ _ Htrace). assumption.
Qed.

Lemma C10_witness :
  let w' := snd (callback_of R3 srv0 env0 (QStr "abc123") w_empty) in
  rows_where (table w') "default_user"
  = [ {| access_token := "token-1"; expires_at := Some 1722427200000 |} ]
  /\ fst (status_of R3 srv0 env1 w') = Return (status_answer true)
  /\ (exists rest,
        since w' (snd (posts_of R3 srv0 env1 w'))
        = DbSelect "default_user"
          :: AxiosGet "https://api.linkedin.com/v2/me"
               [("Authorization", "Bearer token-1")]
          :: rest)
  /\ keyed_on_default_user (since w_empty w')
  /\ keyed_on_default_user (since w' (snd (status_of R3 srv0 env1 w')))
  /\ keyed_on_default_user (since w' (snd (posts_of R3 srv0 env1 w'))).
Proof.
  apply (C10_same_key R3 srv0 env0 (QStr "abc123") w_empty env1
           {| access_token := "token-1"; expires_at := Some 1722427200000 |}).
  - vm_compute. reflexivity.
  - reflexivity.
Defined.

(** ** Normalizing a post *)

Lemma next_mantissa_range stream : 0 <= next_mantissa stream < 2 ^ 53.
Proof. unfold next_mantissa. apply Z.mod_pos_bound. reflexivity. Qed.

(** [Math.floor(Math.random() * n)] lies in [[0, n)]. *)
Lemma floor_scaled_range m n :
  0 <= m < 2 ^ 53 -> 0 < n -> 0 <= floor_scaled m n < n.
Proof.
  intros Hm Hn. unfold floor_scaled. split.
  - apply Z.div_pos; [nia|reflexivity].
  - apply Z.div_lt_upper_bound; [reflexivity|nia].
Qed.

Lemma draw_range stream n : 0 < n -> 0 <= floor_scaled (next_mantissa stream) n < n.
Proof. intros Hn. apply floor_scaled_range; [apply next_mantissa_range|assumption]. Qed.

Lemma TimeClip_valid t : Z.abs t <= 8640000000000000 -> TimeClip t = Some t.
Proof. intros H. unfold TimeClip. apply Z.leb_le in H. rewrite H. reflexivity. Qed.

Lemma truthy_string_nonempty s : truthy_string s = true -> s <> "".
Proof. intros H ->. discriminate. Qed.

Lemma placeholder_nonempty n : placeholder_prefix +:+ dec n <> "".
Proof. discriminate. Qed.

Ltac run_formatPost :=
  cbv beta iota zeta delta
    [Rev1.formatPost Rev2.formatPost Rev3.formatPost Rev3.index_specificContent
     bind ret throw floor_random placeholder_image iso_date or_else];
  cbn [fst snd table rng trace].

(** What revisions 1 and 2 make of a post with a valid time stamp. *)
Lemma Rev1_formatPost_run post w :
  Z.abs (createdAt post) <= 8640000000000000 ->
  exists imageUrl w',
    Rev1.formatPost post w
    = (Return (JObj (js_field "id" (post_id post) ++
         [("content", JStr (or_default (commentary post) ""));
          ("imageUrl", JStr imageUrl);
          ("impressions", JNum 0);
          ("reactions", zero_reactions);
          ("comments", JNum 0);
          ("shares", JNum 0);
          ("date", JStr (split_T_head (toISOString (createdAt post))))])), w')
    /\ Rev2.formatPost post w = Rev1.formatPost post w
    /\ imageUrl <> ""
    /\ (content post ?. content_media ?. source ?. downloadUrl = None ->
        exists n, 0 <= n < 1000 /\ imageUrl = placeholder_prefix +:+ dec n).
Proof.
  intros Hdate. apply TimeClip_valid in Hdate.
  run_formatPost. rewrite Hdate.
  destruct (content post ?. content_media ?. source ?. downloadUrl) as [url|].
  - destruct (truthy_string url) eqn:Hurl; simpl.
    + eexists _, _. split; [reflexivity|]. split; [reflexivity|].
      split; [apply truthy_string_nonempty; assumption|]. intros; discriminate.
    + eexists _, _. split; [reflexivity|]. split; [reflexivity|].
      split; [apply placeholder_nonempty|]. intros; discriminate.
  - simpl. eexists _, _. split; [reflexivity|]. split; [reflexivity|].
    split; [apply placeholder_nonempty|]. intros _.
    eexists. split; [|reflexivity]. apply draw_range. reflexivity.
Qed.

(** What revision 3 makes of a share that has a [specificContent] object
    and a valid time stamp. *)
Lemma Rev3_formatPost_run sh obj w :
  specificContent sh = Some obj ->
  Z.abs (created_time sh) <= 8640000000000000 ->
  exists image impressions likes celebrations loves insights funny comments shares w',
    Rev3.formatPost sh w
    = (Return (JObj (js_field "id" (share_id sh) ++
         [("content",
           JStr (or_default
                   (assoc "com.linkedin.ugc.ShareContent" obj ?. shareCommentary ?. text)
                   ""));
          ("imageUrl", JStr (placeholder_prefix +:+ dec image));
          ("impressions", JNum (impressions + 500));
          ("reactions", JObj [("likes", JNum likes);
                              ("celebrations", JNum celebrations);
                              ("loves", JNum loves);
                              ("insights", JNum insights);
                              ("funny", JNum funny)]);
          ("comments", JNum comments);
          ("shares", JNum shares);
          ("date", JStr (split_T_head (toISOString (created_time sh))))])), w')
    /\ 0 <= image < 1000
    /\ 0 <= impressions < 5000
    /\ 0 <= likes < 100
    /\ 0 <= celebrations < 20
    /\ 0 <= loves < 15
    /\ 0 <= insights < 25
    /\ 0 <= funny < 5
    /\ 0 <= comments < 50
    /\ 0 <= shares < 10.
Proof.
  intros Hobj Hdate. apply TimeClip_valid in Hdate.
  run_formatPost. rewrite Hobj, Hdate. cbn [fst snd table rng trace].
  do 10 eexists. split; [reflexivity|].
  repeat split; apply draw_range; reflexivity.
Qed.

(** A property other than [id] is read past the [id] of the object. *)
Lemma get_field_past_id key id rest :
  String.eqb "id" key = false ->
  get_field key (JObj (js_field "id" id ++ rest)) = get_field key (JObj rest).
Proof.
  intros Hkey. destruct id as [v|]; [|reflexivity].
  change (get_field key (JObj (js_field "id" (Some v) ++ rest)))
    with (if String.eqb "id" key then Some v else assoc key rest).
  rewrite Hkey. reflexivity.
Qed.

Lemma get_field_id id rest :
  assoc "id" rest = None ->
  get_field "id" (JObj (js_field "id" id ++ rest)) = id.
Proof. intros Hrest. destruct id as [v|]; simpl; [reflexivity|assumption]. Qed.

Ltac past_id id := rewrite ?(get_field_past_id _ id) by reflexivity.

(** C6, as amended: in every post the handlers normalize, each field the
    handler computes (content, imageUrl, impressions, reactions with its
    five counts, comments, shares, date) is present and not null; the
    [imageUrl] is never empty, and is the placeholder URL when the post
    carries no media reference; the [content] is the empty string when the
    provider sent no commentary.  The [id] is the provider's, copied as it
    is: the post has the complete shape when the provider's element
    carries an [id] that is not null.  Revisions 1 and 2 share one
    normalization; revision 3 has its own. *)
Theorem C6_complete_shape (post : rest_post) (sh : share)
    (obj : list (string * share_content)) (w : world) :
  Z.abs (createdAt post) <= 8640000000000000 ->
  specificContent sh = Some obj ->
  Z.abs (created_time sh) <= 8640000000000000 ->
  (exists j w',
     Rev1.formatPost post w = (Return j, w')
     /\ Rev2.formatPost post w = (Return j, w')
     /\ complete_but_id j = true
     /\ get_field "id" j = post_id post
     /\ (defined (post_id post) = true -> complete_shape j = true)
     /\ (exists url, get_field "imageUrl" j = Some (JStr url) /\ url <> "")
     /\ (content post ?. content_media ?. source ?. downloadUrl = None ->
         exists n, 0 <= n < 1000
           /\ get_field "imageUrl" j = Some (JStr (placeholder_prefix +:+ dec n)))
     /\ (commentary post = None -> get_field "content" j = Some (JStr "")))
  /\ (exists j w',
        Rev3.formatPost sh w = (Return j, w')
        /\ complete_but_id j = true
        /\ get_field "id" j = share_id sh
        /\ (defined (share_id sh) = true -> complete_shape j = true)
        /\ (exists n, 0 <= n < 1000
              /\ get_field "imageUrl" j = Some (JStr (placeholder_prefix +:+ dec n))
              /\ placeholder_prefix +:+ dec n <> "")
        /\ (assoc "com.linkedin.ugc.ShareContent" obj ?. shareCommentary ?. text = None ->
            get_field "content" j = Some (JStr ""))).
Proof.
  intros Hpost Hobj Hshare. split.
  - destruct (Rev1_formatPost_run post w Hpost)
      as (imageUrl & w' & Hrun & Hsame & Hnonempty & Hplaceholder).
    eexists _, w'. split; [exact Hrun|].
    split; [rewrite Hsame; exact Hrun|].
    split; [unfold complete_but_id; cbn [forallb computed_fields]; past_id (post_id post); reflexivity|].
    split; [apply get_field_id; reflexivity|].
    split; [destruct (post_id post) as [[]|]; try discriminate; reflexivity|].
    past_id (post_id post).
    split; [exists imageUrl; split; [reflexivity|assumption]|].
    split.
    + intros Hnone. destruct (Hplaceholder Hnone) as (n & Hn & ->).
      exists n. split; [assumption|reflexivity].
    + intros ->. reflexivity.
  - destruct (Rev3_formatPost_run sh obj w Hobj Hshare)
      as (image & impressions & likes & celebrations & loves & insights
          & funny & comments & shares & w' & Hrun & Himage & _).
    eexists _, w'. split; [exact Hrun|].
    split; [unfold complete_but_id; cbn [forallb computed_fields]; past_id (share_id sh); reflexivity|].
    split; [apply get_field_id; reflexivity|].
    split; [destruct (share_id sh) as [[]|]; try discriminate; reflexivity|].
    past_id (share_id sh).
    split.
    + exists image. split; [assumption|]. split; [reflexivity|discriminate].
    + intros ->. reflexivity.
Qed.

Lemma C6_witness :
  (exists j w',
     Rev1.formatPost post_bare w_empty = (Return j, w')
     /\ Rev2.formatPost post_bare w_empty = (Return j, w')
     /\ complete_but_id j = true
     /\ get_field "id" j = post_id post_bare
     /\ (defined (post_id post_bare) = true -> complete_shape j = true)
     /\ (exists url, get_field "imageUrl" j = Some (JStr url) /\ url <> "")
     /\ (content post_bare ?. content_media ?. source ?. downloadUrl = None ->
         exists n, 0 <= n < 1000
           /\ get_field "imageUrl" j = Some (JStr (placeholder_prefix +:+ dec n)))
     /\ (commentary post_bare = None -> get_field "content" j = Some (JStr "")))
  /\ (exists j w',
        Rev3.formatPost share_bare w_empty = (Return j, w')
        /\ complete_but_id j = true
        /\ get_field "id" j = share_id share_bare
        /\ (defined (share_id share_bare) = true -> complete_shape j = true)
        /\ (exists n, 0 <= n < 1000
              /\ get_field "imageUrl" j = Some (JStr (placeholder_prefix +:+ dec n))
              /\ placeholder_prefix +:+ dec n <> "")
        /\ (assoc "com.linkedin.ugc.ShareContent" [] ?. shareCommentary ?. text = None ->
            get_field "content" j = Some (JStr ""))).
Proof.
  apply (C6_complete_shape post_bare share_bare [] w_empty).
  - simpl. lia.
  - reflexivity.
  - simpl. lia.
Defined.

(** An element without [id] is normalized to a post without [id]: the
    shape is not complete. *)
Lemma C6_counterexample :
  exists j w',
    Rev1.formatPost post_without_id w_empty = (Return j, w')
    /\ get_field "id" j = None
    /\ complete_shape j = false.
Proof. eexists _, _. split; [vm_compute; reflexivity|]. split; reflexivity. Qed.

(** C7, as amended: for a post with a valid time stamp, revisions 1 and 2
    report zero impressions, comments and shares and a [reactions] record
    whose five counts are zero, whatever [Math.random] yields; revision 3
    fills the same fields with numbers drawn from [Math.random]:
    impressions in [[500, 5500)], likes below 100, celebrations below 20,
    loves below 15, insights below 25, funny below 5, comments below 50 and
    shares below 10, none negative. *)
Theorem C7_metrics (post : rest_post) (sh : share)
    (obj : list (string * share_content)) (w : world) :
  Z.abs (createdAt post) <= 8640000000000000 ->
  specificContent sh = Some obj ->
  Z.abs (created_time sh) <= 8640000000000000 ->
  (exists j w',
     Rev1.formatPost post w = (Return j, w')
     /\ Rev2.formatPost post w = (Return j, w')
     /\ get_field "impressions" j = Some (JNum 0)
     /\ get_field "comments" j = Some (JNum 0)
     /\ get_field "shares" j = Some (JNum 0)
     /\ get_field "reactions" j = Some zero_reactions)
  /\ (exists j w' reactions,
        Rev3.formatPost sh w = (Return j, w')
        /\ field_in_range "impressions" 500 5500 j
        /\ field_in_range "comments" 0 50 j
        /\ field_in_range "shares" 0 10 j
        /\ get_field "reactions" j = Some reactions
        /\ field_in_range "likes" 0 100 reactions
        /\ field_in_range "celebrations" 0 20 reactions
        /\ field_in_range "loves" 0 15 reactions
        /\ field_in_range "insights" 0 25 reactions
        /\ field_in_range "funny" 0 5 reactions).
Proof.
  intros Hpost Hobj Hshare. split.
  - destruct (Rev1_formatPost_run post w Hpost)
      as (imageUrl & w' & Hrun & Hsame & _).
    eexists _, w'. split; [exact Hrun|].
    split; [rewrite Hsame; exact Hrun|].
    past_id (post_id post). repeat split; reflexivity.
  - destruct (Rev3_formatPost_run sh obj w Hobj Hshare)
      as (image & impressions & likes & celebrations & loves & insights
          & funny & comments & shares & w' & Hrun & _ & Himpressions & Hlikes
          & Hcelebrations & Hloves & Hinsights & Hfunny & Hcomments & Hshares).
    eexists _, w', _. split; [exact Hrun|].
    unfold field_in_range. destruct (share_id sh) as [id|].
    all: repeat split; try reflexivity;
      try (eexists; split; [reflexivity|lia]).
Qed.

Lemma C7_witness :
  (exists j w',
     Rev1.formatPost post1 w_half = (Return j, w')
     /\ Rev2.formatPost post1 w_half = (Return j, w')
     /\ get_field "impressions" j = Some (JNum 0)
     /\ get_field "comments" j = Some (JNum 0)
     /\ get_field "shares" j = Some (JNum 0)
     /\ get_field "reactions" j = Some zero_reactions)
  /\ (exists j w' reactions,
        Rev3.formatPost share1 w_half = (Return j, w')
        /\ field_in_range "impressions" 500 5500 j
        /\ field_in_range "comments" 0 50 j
        /\ field_in_range "shares" 0 10 j
        /\ get_field "reactions" j = Some reactions
        /\ field_in_range "likes" 0 100 reactions
        /\ field_in_range "celebrations" 0 20 reactions
        /\ field_in_range "loves" 0 15 reactions
        /\ field_in_range "insights" 0 25 reactions
        /\ field_in_range "funny" 0 5 reactions).
Proof.
  apply (C7_metrics post1 share1
           [("com.linkedin.ugc.ShareContent",
             {| shareCommentary := Some {| text := Some "hi" |} |})] w_half).
  - simpl. lia.
  - reflexivity.
  - simpl. lia.
Defined.

(** Revision 3 reports 3000 impressions, 25 comments, 5 shares and 50 likes
    for a share about which the provider sent no engagement data. *)
Lemma C7_counterexample :
  exists j w',
    Rev3.formatPost share1 w_half = (Return j, w')
    /\ get_field "impressions" j = Some (JNum 3000)
    /\ get_field "comments" j = Some (JNum 25)
    /\ get_field "shares" j = Some (JNum 5)
    /\ (get_field "reactions" j ?. get_field "likes") = Some (JNum 50)
    /\ get_field "impressions" j <> Some (JNum 0).
Proof.
  eexists _, _. split; [vm_compute; reflexivity|].
  repeat split; try reflexivity. discriminate.
Qed.

(** Whatever the posts handler returns with status 200 is an array of
    posts in which every computed field is present. *)
Lemma js_map_Forall {A B} (f : A -> M B) (P : B -> Prop) (l : list A) :
  (forall a w b w', f a w = (Return b, w') -> P b) ->
  forall w ys w', js_map f l w = (Return ys, w') -> Forall P ys.
Proof.
  intros Hf. induction l as [|x rest IH]; intros w ys w'; simpl.
  - unfold ret. intros H. injection H as <- _. constructor.
  - unfold bind, ret.
    destruct (f x w) as [[y|err] w1] eqn:Hx; [|discriminate].
    destruct (js_map f rest w1) as [[ys'|err] w2] eqn:Hrest; [|discriminate].
    intros H. injection H as <- _.
    constructor; [eapply Hf; eassumption|eapply IH; eassumption].
Qed.

Lemma Rev1_formatPost_complete post w j w' :
  Rev1.formatPost post w = (Return j, w') -> complete_but_id j = true.
Proof.
  run_formatPost. repeat next_case; intros H; try discriminate;
    injection H as <- _;
    unfold complete_but_id; cbn [forallb computed_fields]; past_id (post_id post); reflexivity.
Qed.

Lemma Rev2_formatPost_complete post w j w' :
  Rev2.formatPost post w = (Return j, w') -> complete_but_id j = true.
Proof.
  run_formatPost. repeat next_case; intros H; try discriminate;
    injection H as <- _;
    unfold complete_but_id; cbn [forallb computed_fields]; past_id (post_id post); reflexivity.
Qed.

Lemma Rev3_formatPost_complete post w j w' :
  Rev3.formatPost post w = (Return j, w') -> complete_but_id j = true.
Proof.
  run_formatPost. repeat next_case; intros H; try discriminate;
    injection H as <- _;
    unfold complete_but_id; cbn [forallb computed_fields]; past_id (share_id post); reflexivity.
Qed.

Lemma posts_items_complete rev srv e w items :
  fst (posts_of rev srv e w) = Return (Json 200 (JArr items)) ->
  Forall (fun j => complete_but_id j = true) items.
Proof.
  destruct rev; simpl; run_handler; repeat next_case;
    intros H; try discriminate; injection H as <-;
    (eapply js_map_Forall; [|eassumption]); intros p0 w1 j0 w2 Hj0.
  - eapply Rev1_formatPost_complete; eassumption.
  - eapply Rev2_formatPost_complete; eassumption.
  - eapply Rev3_formatPost_complete; eassumption.
Qed.

(** ** The token request *)

(** The three revisions announce the same callback address when they send
    the user to the provider. *)
Lemma begin_authorization_address rev srv :
  begin_authorization_of rev srv
  = res_redirect
      ("https://www.linkedin.com/oauth/v2/authorization?response_type=code&client_id="
       +:+ tpl (LINKEDIN_CLIENT_ID srv) +:+ "&redirect_uri="
       +:+ encodeURIComponent (callback_address srv) +:+ "&scope=r_liteprofile").
Proof. destruct rev; reflexivity. Qed.

(** A callback request that carries a code sends one request to the token
    endpoint, with a [null] body: the grant type, the code as received,
    the callback address of [begin_authorization], and the client
    credentials travel as request parameters. *)
Lemma token_exchange_request rev srv e code w :
  truthy code = true ->
  without_pool rev srv = false ->
  exists rest,
    since w (snd (callback_of rev srv e code w))
    = AxiosPost "https://www.linkedin.com/oauth/v2/accessToken"
        [("grant_type", QStr "authorization_code");
         ("code", code);
         ("redirect_uri", QStr (callback_address srv));
         ("client_id", env_param (LINKEDIN_CLIENT_ID srv));
         ("client_secret", env_param (LINKEDIN_CLIENT_SECRET srv))]
        [("Content-Type", declared_content_type rev)]
      :: rest.
Proof.
  intros Hcode Hpool.
  destruct rev; simpl in *; run_handler; rewrite Hcode;
    try (apply negb_false_iff in Hpool; rewrite Hpool);
    cbn [negb]; repeat next_case;
    (erewrite since_app;
     [|rewrite <- ?List.app_assoc; cbn [app]; reflexivity]);
    eexists; reflexivity.
Qed.

(** C8, on the request for code ["abc123"]: the token request of revisions
    1 and 2 declares the content type ["application/x-form-urlencoded"],
    which is not the form media type; revision 3 declares
    ["application/x-www-form-urlencoded"]. *)
Theorem C8_declared_content_type :
  (token_request (snd (Rev1.callback srv0 env0 (QStr "abc123") w_empty))
     ?. content_type) = Some "application/x-form-urlencoded"
  /\ (token_request (snd (Rev2.callback srv0 env0 (QStr "abc123") w_empty))
        ?. content_type) = Some "application/x-form-urlencoded"
  /\ (token_request (snd (Rev3.callback srv0 env0 (QStr "abc123") w_empty))
        ?. content_type) = Some form_urlencoded
  /\ "application/x-form-urlencoded" <> form_urlencoded.
Proof. repeat split; try (vm_compute; reflexivity). discriminate. Qed.

Example token_request_sample :
  let request := token_request (snd (Rev1.callback srv0 env0 (QStr "abc123") w_empty)) in
  (request ?. request_param "grant_type") = Some (QStr "authorization_code")
  /\ (request ?. request_param "code") = Some (QStr "abc123")
  /\ (request ?. request_param "redirect_uri")
     = Some (QStr "https://api.example.com/auth/linkedin/callback")
  /\ (request ?. request_param "client_id") = Some (QStr "client-id")
  /\ (request ?. request_param "client_secret") = Some (QStr "client-secret").
Proof. repeat split; vm_compute; reflexivity. Qed.


(** * Further properties of the handlers *)

(** ** What a handler adds to the trace *)

Ltac since_now :=
  erewrite since_app;
  [|cbn [trace];
    try match goal with Hq : trace _ = _ |- _ => rewrite Hq end;
    rewrite <- ?List.app_assoc; cbn [app];
    first [reflexivity | symmetry; apply app_nil_r]].

Lemma callback_of_outbound rev srv e code w :
  outbound_since w (snd (callback_of rev srv e code w))
  = if truthy code && negb (without_pool rev srv)
    then [token_exchange_call rev srv code]
    else [].
Proof.
  unfold outbound_since, token_exchange_call, callback_address.
  destruct rev; simpl; run_handler;
    destruct (truthy code); destruct (dbPool srv); cbn [negb andb];
    repeat next_case; since_now; reflexivity.
Qed.

(** ** Answers *)

(** Every exception raised inside a handler is caught there: each handler
    answers, and with one of a few status codes. *)
Theorem handlers_always_answer rev srv e code w :
  (exists r, fst (callback_of rev srv e code w) = Return r
             /\ (status_code r = 302 \/ status_code r = 500))
  /\ (exists r, fst (status_of rev srv e w) = Return r
                /\ (status_code r = 200 \/ status_code r = 500))
  /\ (exists r, fst (posts_of rev srv e w) = Return r
                /\ In (status_code r) [200; 401; 403; 500]).
Proof.
  split; [|split].
  - rewrite callback_of_answer. eexists. split; [reflexivity|].
    destruct (without_pool rev srv); [right|left]; reflexivity.
  - rewrite status_of_run. eexists. split; [reflexivity|].
    destruct (without_pool rev srv); [left; reflexivity|].
    destruct (dbPool srv && db_up e); [left; reflexivity|].
    right. destruct rev; reflexivity.
  - destruct rev; simpl; run_handler; repeat next_case;
      (eexists; split; [reflexivity|]); simpl; tauto.
Qed.

(** ** Completing an authorization, continued *)


(** Across a change of offset the result is off by the difference: a day
    of seconds added on the eve of the autumn change ends 25 hours
    later. *)
Example setSeconds_across_the_autumn_change :
  setSeconds_plus tza_cet_autumn_2024 1729944000000 (Some 86400)
  = Some (1729944000000 + 1000 * 86400 + 3600000).
Proof. vm_compute. reflexivity. Qed.



(** Unless the user is sent to the success page, the table is left exactly
    as it was: a failed re-authorization keeps the token on file. *)
Theorem failure_keeps_table rev srv e code w :
  fst (callback_of rev srv e code w) <> Return (res_redirect (success_page srv)) ->
  table (snd (callback_of rev srv e code w)) = table w.
Proof.
  intros Hfail. rewrite callback_of_table. unfold callback_table.
  destruct (exchanged srv e code) as [r|] eqn:Hr; [|reflexivity].
  exfalso. apply Hfail. apply success_page_iff_exchanged. rewrite Hr. eauto.
Qed.

Lemma failure_keeps_table_witness :
  table (snd (callback_of R3 srv0 env_db_down (QStr "ghi789") w_connected))
  = table w_connected.
Proof.
  apply (failure_keeps_table R3 srv0 env_db_down (QStr "ghi789") w_connected).
  vm_compute. discriminate.
Defined.

(** A callback request sends exactly one request, to the token endpoint,
    when it carries a code (a string or the array of a repeated
    parameter) and is not stopped by the pool test of revision 2; it
    sends none otherwise, and never a second one. *)
Theorem callback_sends_one_token_request rev srv e code w :
  outbound_since w (snd (callback_of rev srv e code w))
  = if truthy code && negb (without_pool rev srv)
    then [token_exchange_call rev srv code]
    else [].
Proof. apply callback_of_outbound. Qed.

(** The [redirect_uri] of every token request is the address that
    [begin_authorization] put, percent-encoded, in the authorization URL
    of the same revision. *)
Theorem callback_address_agrees rev srv e code w ev :
  In ev (outbound_since w (snd (callback_of rev srv e code w))) ->
  exists address,
    request_param "redirect_uri" ev = Some (QStr address)
    /\ begin_authorization_of rev srv
       = res_redirect
           ("https://www.linkedin.com/oauth/v2/authorization?response_type=code&client_id="
            +:+ tpl (LINKEDIN_CLIENT_ID srv) +:+ "&redirect_uri="
            +:+ encodeURIComponent address +:+ "&scope=r_liteprofile").
Proof.
  rewrite callback_of_outbound.
  destruct (truthy code && negb (without_pool rev srv)); simpl; [|tauto].
  intros [<- | []]. exists (callback_address srv).
  split; [reflexivity|]. apply begin_authorization_address.
Qed.

Lemma callback_address_agrees_witness :
  exists address,
    request_param "redirect_uri" (token_exchange_call R2 srv0 (QStr "abc123"))
    = Some (QStr address)
    /\ begin_authorization_of R2 srv0
       = res_redirect
           ("https://www.linkedin.com/oauth/v2/authorization?response_type=code&client_id="
            +:+ tpl (LINKEDIN_CLIENT_ID srv0) +:+ "&redirect_uri="
            +:+ encodeURIComponent address +:+ "&scope=r_liteprofile").
Proof.
  apply (callback_address_agrees R2 srv0 env0 (QStr "abc123") w_empty).
  vm_compute. left. reflexivity.
Defined.

(** The authorization URL is built from [BACKEND_URL] and the client
    identifier alone, the same way in the three revisions: neither the
    client secret nor the state of the pool reaches the browser. *)
Theorem begin_authorization_reads_two_settings rev1 rev2 srv1 srv2 :
  BACKEND_URL srv1 = BACKEND_URL srv2 ->
  LINKEDIN_CLIENT_ID srv1 = LINKEDIN_CLIENT_ID srv2 ->
  begin_authorization_of rev1 srv1 = begin_authorization_of rev2 srv2.
Proof.
  intros Hb Hc. rewrite !begin_authorization_address.
  unfold callback_address. rewrite Hb, Hc. reflexivity.
Qed.

Lemma begin_authorization_reads_two_settings_witness :
  begin_authorization_of R1 srv0 = begin_authorization_of R3 srv_no_pool.
Proof.
  apply (begin_authorization_reads_two_settings R1 R3 srv0 srv_no_pool);
    reflexivity.
Defined.

(** ** [encodeURIComponent] *)

Ltac each_ascii c := destruct c as [[] [] [] [] [] [] [] []].

Lemma hex_digits_unreserved c :
  unreserved (hex_digit (N_of_ascii c / 16)) = true
  /\ unreserved (hex_digit (N_of_ascii c mod 16)) = true.
Proof. each_ascii c; vm_compute; split; reflexivity. Qed.

Lemma unhex_hex_digits c :
  unhex (hex_digit (N_of_ascii c / 16)) = (N_of_ascii c / 16)%N
  /\ unhex (hex_digit (N_of_ascii c mod 16)) = (N_of_ascii c mod 16)%N.
Proof. each_ascii c; vm_compute; split; reflexivity. Qed.

Lemma url_safe_no_delimiter c :
  url_safe c = true -> ~ In c (String.list_ascii_of_string "&=#?/:+ ").
Proof. each_ascii c; vm_compute; intros H; try discriminate; intuition discriminate. Qed.

(** Whatever the string, its encoding consists of unreserved characters
    and ['%'] only, and so holds none of the characters that delimit the
    parts of a URL or of a query string. *)
Theorem encodeURIComponent_alphabet s c :
  In c (String.list_ascii_of_string (encodeURIComponent s)) ->
  url_safe c = true /\ ~ In c (String.list_ascii_of_string "&=#?/:+ ").
Proof.
  intros Hin. assert (Hsafe : url_safe c = true).
  { induction s as [|a s IH]; simpl in Hin; [contradiction|].
    destruct (unreserved a) eqn:Ha; simpl in Hin.
    - destruct Hin as [<- | Hin]; [|auto].
      unfold url_safe. rewrite Ha. reflexivity.
    - destruct (hex_digits_unreserved a) as [Hhi Hlo].
      destruct Hin as [<- | [<- | [<- | Hin]]]; [reflexivity| | |auto];
        unfold url_safe; rewrite ?Hhi, ?Hlo; reflexivity. }
  split; [assumption|apply url_safe_no_delimiter; assumption].
Qed.

Lemma encodeURIComponent_alphabet_witness :
  url_safe "%"%char = true
  /\ ~ In "%"%char (String.list_ascii_of_string "&=#?/:+ ").
Proof.
  apply (encodeURIComponent_alphabet "https://api.example.com/cb?x=1&y=2").
  vm_compute. tauto.
Defined.

Lemma ascii_of_digits a b :
  (N_of_ascii a / 16 = N_of_ascii b / 16)%N ->
  (N_of_ascii a mod 16 = N_of_ascii b mod 16)%N ->
  a = b.
Proof.
  intros Hhi Hlo.
  rewrite <- (ascii_N_embedding a), <- (ascii_N_embedding b).
  f_equal.
  rewrite (N.div_mod (N_of_ascii a) 16), (N.div_mod (N_of_ascii b) 16) by discriminate.
  congruence.
Qed.

(** Two strings with the same encoding are equal: the provider can recover
    the callback address from the authorization URL. *)
Theorem encodeURIComponent_injective a b :
  encodeURIComponent a = encodeURIComponent b -> a = b.
Proof.
  revert b. induction a as [|x a IH]; intros [|y b]; simpl.
  - reflexivity.
  - destruct (unreserved y); discriminate.
  - destruct (unreserved x); discriminate.
  - destruct (unreserved x) eqn:Hx, (unreserved y) eqn:Hy; intros H.
    + injection H as -> H. f_equal. auto.
    + injection H as -> _. discriminate.
    + injection H as <- _. discriminate.
    + injection H as Hhi Hlo H.
      destruct (unhex_hex_digits x) as [Hxhi Hxlo].
      destruct (unhex_hex_digits y) as [Hyhi Hylo].
      f_equal; [|auto].
      apply ascii_of_digits; congruence.
Qed.

Lemma encodeURIComponent_injective_witness :
  "https://api.example.com/auth/linkedin/callback"
  = "https://api.example.com/auth/linkedin/callback".
Proof.
  apply (encodeURIComponent_injective
           "https://api.example.com/auth/linkedin/callback"
           "https://api.example.com/auth/linkedin/callback").
  reflexivity.
Defined.


(** ** The readers *)

(** The status handler does one thing: when it has a pool and the database
    answers, it selects the row of ['default_user']; it changes neither the
    table nor the random stream and calls nobody. *)
Theorem status_is_one_select rev srv e w :
  snd (status_of rev srv e w)
  = {| table := table w;
       rng := rng w;
       trace := trace w ++
                if dbPool srv && db_up e then [DbSelect "default_user"] else [] |}.
Proof.
  destruct w as [t r tr].
  destruct rev; simpl; run_handler;
    destruct (dbPool srv); destruct (db_up e); cbn [negb andb];
    repeat next_case; rewrite ?app_nil_r; reflexivity.
Qed.

Ltac js_map_quiet Hquiet :=
  match goal with
  | |- context [js_map ?f ?l ?w] =>
      let Hq := fresh "Hq" in
      let Ht := fresh "Ht" in
      pose proof (quiet_js_map f l Hquiet w) as Hq;
      destruct (js_map f l w) as [[? | ?] ?];
      cbn [fst snd table rng trace err_response err_message] in *;
      destruct Hq as [Ht Hq]
  end.

Ltac posts_cases :=
  repeat first
    [ js_map_quiet Rev1_formatPost_quiet
    | js_map_quiet Rev2_formatPost_quiet
    | js_map_quiet Rev3_formatPost_quiet
    | next_case ].

(** The posts handler never writes: whatever the provider and the database
    do, the table is afterwards what it was, and no statement other than
    the one select reached the database. *)
Theorem posts_never_write rev srv e w :
  table (snd (posts_of rev srv e w)) = table w
  /\ store_writes (snd (posts_of rev srv e w)) = store_writes w.
Proof.
  unfold store_writes.
  destruct rev; simpl; run_handler; posts_cases;
    rewrite ?Ht, ?Hq, ?List.filter_app; cbn [List.filter is_store_write];
    rewrite ?app_nil_r; split; reflexivity.
Qed.

(** The posts handler calls nobody but the provider's API, with GET
    requests that present the stored token as bearer; it sends at most
    two requests, none without a record on file, and the second only
    after the identity endpoint answered 2xx: no request is repeated. *)
Theorem posts_call_only_the_api rev srv e w :
  (length (outbound_since w (snd (posts_of rev srv e w))) <= 2)%nat
  /\ (forall ev,
        In ev (outbound_since w (snd (posts_of rev srv e w))) ->
        exists row,
          table w !! "default_user" = Some row
          /\ api_call_with (access_token row) ev)
  /\ (length (outbound_since w (snd (posts_of rev srv e w))) = 2%nat ->
      is_2xx (me_endpoint e) = true).
Proof.
  unfold outbound_since, api_call_with.
  destruct rev; simpl; run_handler; unfold rows_where;
    destruct (dbPool srv); destruct (db_up e); cbn [negb];
    try (since_now; simpl; repeat split; (lia || tauto || discriminate));
    (destruct (table w !! "default_user") as [row0|];
     cbn [option_list option_rect fst snd table rng trace]);
    posts_cases; rewrite ?Hq; since_now;
    cbn [List.filter is_outbound length In];
    (split; [lia|]);
    (split; [|try discriminate; reflexivity]);
    intros ev Hev;
    repeat match type of Hev with
           | _ \/ _ => destruct Hev as [<- | Hev]
           | False => contradiction
           end;
    (exists row0; split; [reflexivity|]);
    eexists _, _; (split; [reflexivity|]); split; reflexivity.
Qed.

(** ** The listing *)

Lemma js_map_map {A B C} (f : A -> M B) (g : B -> C) (h : A -> C) (l : list A) :
  (forall a w b w', f a w = (Return b, w') -> g b = h a) ->
  forall w ys w', js_map f l w = (Return ys, w') -> map g ys = map h l.
Proof.
  intros Hf. induction l as [|x rest IH]; intros w ys w'; simpl.
  - unfold ret. intros H. injection H as <- _. reflexivity.
  - unfold bind, ret.
    destruct (f x w) as [[y|err] w1] eqn:Hx; [|discriminate].
    destruct (js_map f rest w1) as [[ys'|err] w2] eqn:Hrest; [|discriminate].
    intros H. injection H as <- _. simpl.
    f_equal; [eapply Hf; eassumption|eapply IH; eassumption].
Qed.

Lemma Rev1_formatPost_id post w j w' :
  Rev1.formatPost post w = (Return j, w') ->
  get_field "id" j = post_id post.
Proof.
  run_formatPost. repeat next_case; intros H; try discriminate;
    injection H as <- _; apply get_field_id; reflexivity.
Qed.

Lemma Rev2_formatPost_id post w j w' :
  Rev2.formatPost post w = (Return j, w') ->
  get_field "id" j = post_id post.
Proof.
  run_formatPost. repeat next_case; intros H; try discriminate;
    injection H as <- _; apply get_field_id; reflexivity.
Qed.

Lemma Rev3_formatPost_id post w j w' :
  Rev3.formatPost post w = (Return j, w') ->
  get_field "id" j = share_id post.
Proof.
  run_formatPost. repeat next_case; intros H; try discriminate;
    injection H as <- _; apply get_field_id; reflexivity.
Qed.

(** A 200 answer of the posts handler lists exactly the posts of the
    provider's listing, one item for each, in the provider's order: the
    [id]s of the items are those of the elements, an item having none
    where the element has none. *)
Theorem posts_keep_provider_order rev srv e w items :
  fst (posts_of rev srv e w) = Return (Json 200 (JArr items)) ->
  exists ids,
    listing_ids rev e = Some ids
    /\ map (get_field "id") items = ids.
Proof.
  unfold listing_ids.
  destruct rev; simpl; run_handler; repeat next_case;
    intros H; try discriminate; injection H as <-;
    (eexists; split; [reflexivity|]);
    (eapply js_map_map; [|eassumption]); intros p0 w1 j0 w2 Hj0.
  - eapply Rev1_formatPost_id; eassumption.
  - eapply Rev2_formatPost_id; eassumption.
  - eapply Rev3_formatPost_id; eassumption.
Qed.

Lemma posts_keep_provider_order_witness :
  exists ids,
    listing_ids R1 env0 = Some ids
    /\ map (get_field "id")
         [JObj [("id", JStr "p1"); ("content", JStr "hi");
                ("imageUrl", JStr "https://picsum.photos/800/400?random=500");
                ("impressions", JNum 0); ("reactions", zero_reactions);
                ("comments", JNum 0); ("shares", JNum 0);
                ("date", JStr "2024-06-01")]]
       = ids.
Proof.
  apply (posts_keep_provider_order R1 srv0 env0
           {| table := table w_connected; rng := rng w_empty; trace := [] |}).
  vm_compute. reflexivity.
Defined.

Lemma valid_time_bound t : valid_time t = true -> Z.abs t <= 8640000000000000.
Proof.
  unfold valid_time, TimeClip.
  destruct (Z.abs t <=? 8640000000000000) eqn:H; [|discriminate].
  intros _. apply Z.leb_le. assumption.
Qed.

Lemma invalid_time_clip t : valid_time t = false -> TimeClip t = None.
Proof. unfold valid_time. destruct (TimeClip t); [discriminate|reflexivity]. Qed.

Lemma forallb_false {A} (f : A -> bool) (l : list A) :
  forallb f l = false -> exists x, In x l /\ f x = false.
Proof.
  induction l as [|x l IH]; simpl; [discriminate|].
  destruct (f x) eqn:Hx; simpl.
  - intros H. destruct (IH H) as (y & Hy & Hfy). eauto.
  - intros _. eauto.
Qed.

(** [map] over a listing whose callback returns on every element returns a
    list of the same length. *)
Lemma js_map_returns {A B} (f : A -> M B) (l : list A) :
  (forall a, In a l -> forall w, exists b w', f a w = (Return b, w')) ->
  forall w, exists ys w', js_map f l w = (Return ys, w') /\ length ys = length l.
Proof.
  induction l as [|x rest IH]; intros Hf w; simpl.
  - eexists _, _. split; reflexivity.
  - unfold bind, ret.
    destruct (Hf x (or_introl eq_refl) w) as (y & w1 & ->).
    destruct (IH (fun a Ha => Hf a (or_intror Ha)) w1) as (ys & w2 & -> & Hlen).
    eexists _, _. split; [reflexivity|]. simpl. congruence.
Qed.

(** [map] stops at the first element on which the callback throws. *)
Lemma js_map_throws {A B} (f : A -> M B) (l : list A) (bad : A) :
  In bad l ->
  (forall w, exists err w', f bad w = (Throw err, w')) ->
  forall w, exists err w', js_map f l w = (Throw err, w').
Proof.
  intros Hin Hbad. induction l as [|x rest IH]; intros w; simpl; [contradiction|].
  unfold bind. destruct Hin as [-> | Hin].
  - destruct (Hbad w) as (err & w' & ->). eauto.
  - destruct (f x w) as [[y|err] w1]; [|eauto].
    destruct (IH Hin w1) as (err & w' & ->). eauto.
Qed.

Lemma js_map_error {A B} (f : A -> M B) (P : js_error -> Prop) (l : list A) :
  (forall a w err w', f a w = (Throw err, w') -> P err) ->
  forall w err w', js_map f l w = (Throw err, w') -> P err.
Proof.
  intros Hf. induction l as [|x rest IH]; intros w err w'; simpl.
  - discriminate.
  - unfold bind, ret.
    destruct (f x w) as [[y|err0] w1] eqn:Hx.
    + destruct (js_map f rest w1) as [[ys|err1] w2] eqn:Hrest; [discriminate|].
      intros H. injection H as <- _. eapply IH; eassumption.
    + intros H. injection H as <- _. eapply Hf; eassumption.
Qed.

(** Normalizing throws plain JavaScript errors, never an axios error. *)
Lemma Rev1_formatPost_error post w err w' :
  Rev1.formatPost post w = (Throw err, w') -> err_response err = None.
Proof.
  run_formatPost. repeat next_case; intros H; try discriminate;
    injection H as <- _; reflexivity.
Qed.

Lemma Rev2_formatPost_error post w err w' :
  Rev2.formatPost post w = (Throw err, w') -> err_response err = None.
Proof.
  run_formatPost. repeat next_case; intros H; try discriminate;
    injection H as <- _; reflexivity.
Qed.

Lemma Rev3_formatPost_error post w err w' :
  Rev3.formatPost post w = (Throw err, w') -> err_response err = None.
Proof.
  run_formatPost. repeat next_case; intros H; try discriminate;
    injection H as <- _; reflexivity.
Qed.

Lemma Rev1_formatPost_returns post w :
  normalizable_post post = true -> exists j w', Rev1.formatPost post w = (Return j, w').
Proof.
  intros H. apply valid_time_bound in H.
  destruct (Rev1_formatPost_run post w H) as (url & w' & Hrun & _). eauto.
Qed.

Lemma Rev2_formatPost_returns post w :
  normalizable_post post = true -> exists j w', Rev2.formatPost post w = (Return j, w').
Proof.
  intros H. apply valid_time_bound in H.
  destruct (Rev1_formatPost_run post w H) as (url & w' & Hrun & Hsame & _).
  rewrite Hsame. eauto.
Qed.

Lemma Rev3_formatPost_returns post w :
  normalizable_share post = true -> exists j w', Rev3.formatPost post w = (Return j, w').
Proof.
  unfold normalizable_share. destruct (specificContent post) as [obj|] eqn:Hobj;
    [|discriminate].
  intros H. apply valid_time_bound in H.
  destruct (Rev3_formatPost_run post obj w Hobj H)
    as (? & ? & ? & ? & ? & ? & ? & ? & ? & w' & Hrun & _).
  eauto.
Qed.

Lemma Rev1_formatPost_throws post w :
  normalizable_post post = false -> exists err w', Rev1.formatPost post w = (Throw err, w').
Proof.
  intros H. apply invalid_time_clip in H.
  run_formatPost. rewrite H. repeat next_case; eauto.
Qed.

Lemma Rev2_formatPost_throws post w :
  normalizable_post post = false -> exists err w', Rev2.formatPost post w = (Throw err, w').
Proof.
  intros H. apply invalid_time_clip in H.
  run_formatPost. rewrite H. repeat next_case; eauto.
Qed.

Lemma Rev3_formatPost_throws post w :
  normalizable_share post = false -> exists err w', Rev3.formatPost post w = (Throw err, w').
Proof.
  unfold normalizable_share. run_formatPost.
  destruct (specificContent post); [|eauto].
  intros H. apply invalid_time_clip in H. rewrite H. eauto.
Qed.

(** Having a record, a database that answers and a 2xx identity reply, the
    handler starts on the listing. *)
Ltac reach_listing Hrow Hpool Hup Hme :=
  simpl; run_handler; unfold rows_where;
  rewrite Hpool, Hup; cbn [negb fst snd table rng trace];
  rewrite Hrow; cbn [option_list option_rect fst snd table rng trace];
  rewrite Hme; cbn [fst snd table rng trace].

(** When the listing is delivered and each of its elements has a valid
    time stamp (and, in revision 3, a [specificContent] object), the
    handler answers 200 with as many posts as the listing has elements;
    an empty listing gives an empty array. *)
Theorem normalizable_listing_is_served rev srv e w row p :
  table w !! "default_user" = Some row ->
  dbPool srv = true ->
  db_up e = true ->
  me_endpoint e = Http2xx p ->
  listing_normalizable rev e = true ->
  exists items ids,
    fst (posts_of rev srv e w) = Return (Json 200 (JArr items))
    /\ listing_ids rev e = Some ids
    /\ length items = length ids.
Proof.
  intros Hrow Hpool Hup Hme Hall. unfold listing_normalizable, listing_ids in *.
  destruct rev.
  - destruct (posts_endpoint e) as [[elements|]| |] eqn:Hlist; try discriminate.
    reach_listing Hrow Hpool Hup Hme.
    rewrite Hlist; cbn [fst snd table rng trace].
    match goal with |- context [js_map ?f ?l ?w0] =>
      destruct (js_map_returns f l
                  (fun a Ha w1 => Rev1_formatPost_returns a w1
                     (proj1 (forallb_forall _ _) Hall a Ha)) w0)
        as (ys & w' & -> & Hlen) end.
    eexists _, _. repeat split. rewrite length_map. assumption.
  - destruct (posts_endpoint e) as [[elements|]| |] eqn:Hlist; try discriminate.
    reach_listing Hrow Hpool Hup Hme.
    rewrite Hlist; cbn [fst snd table rng trace].
    match goal with |- context [js_map ?f ?l ?w0] =>
      destruct (js_map_returns f l
                  (fun a Ha w1 => Rev2_formatPost_returns a w1
                     (proj1 (forallb_forall _ _) Hall a Ha)) w0)
        as (ys & w' & -> & Hlen) end.
    eexists _, _. repeat split. rewrite length_map. assumption.
  - destruct (shares_endpoint e) as [[elements|]| |] eqn:Hlist; try discriminate.
    reach_listing Hrow Hpool Hup Hme.
    rewrite Hlist; cbn [fst snd table rng trace].
    match goal with |- context [js_map ?f ?l ?w0] =>
      destruct (js_map_returns f l
                  (fun a Ha w1 => Rev3_formatPost_returns a w1
                     (proj1 (forallb_forall _ _) Hall a Ha)) w0)
        as (ys & w' & -> & Hlen) end.
    eexists _, _. repeat split. rewrite length_map. assumption.
Qed.

Lemma normalizable_listing_is_served_witness :
  exists items ids,
    fst (posts_of R3 srv0 env0 w_connected) = Return (Json 200 (JArr items))
    /\ listing_ids R3 env0 = Some ids
    /\ length items = length ids.
Proof.
  apply (normalizable_listing_is_served R3 srv0 env0 w_connected
           {| access_token := "token-0"; expires_at := Some 0 |}
           {| profile_id := Some "abc" |}).
  - vm_compute. reflexivity.
  - reflexivity.
  - reflexivity.
  - reflexivity.
  - vm_compute. reflexivity.
Defined.

(** One element that cannot be normalized fails the whole request: the
    handler answers 500 with its upstream-error message, never a partial
    list. *)
Theorem unnormalizable_listing_fails rev srv e w row p ids :
  table w !! "default_user" = Some row ->
  dbPool srv = true ->
  db_up e = true ->
  me_endpoint e = Http2xx p ->
  listing_ids rev e = Some ids ->
  listing_normalizable rev e = false ->
  exists diag, fst (posts_of rev srv e w) = Return (upstream_error rev diag).
Proof.
  intros Hrow Hpool Hup Hme Hids Hbad.
  unfold listing_normalizable, listing_ids, upstream_error in *.
  destruct rev.
  - destruct (posts_endpoint e) as [[elements|]| |] eqn:Hlist; try discriminate.
    apply forallb_false in Hbad. destruct Hbad as (bad & Hin & Hbad).
    reach_listing Hrow Hpool Hup Hme.
    rewrite Hlist; cbn [fst snd table rng trace].
    match goal with |- context [js_map ?f ?l ?w0] =>
      destruct (js_map_throws f l bad Hin
                  (fun w1 => Rev1_formatPost_throws bad w1 Hbad) w0)
        as (err & w' & Hthrow);
      rewrite Hthrow;
      rewrite (js_map_error f (fun err => err_response err = None) l
                 Rev1_formatPost_error _ _ _ Hthrow) end.
    exists "". reflexivity.
  - destruct (posts_endpoint e) as [[elements|]| |] eqn:Hlist; try discriminate.
    apply forallb_false in Hbad. destruct Hbad as (bad & Hin & Hbad).
    reach_listing Hrow Hpool Hup Hme.
    rewrite Hlist; cbn [fst snd table rng trace].
    match goal with |- context [js_map ?f ?l ?w0] =>
      destruct (js_map_throws f l bad Hin
                  (fun w1 => Rev2_formatPost_throws bad w1 Hbad) w0)
        as (err & w' & Hthrow);
      rewrite Hthrow;
      rewrite (js_map_error f (fun err => err_response err = None) l
                 Rev2_formatPost_error _ _ _ Hthrow) end.
    exists "". reflexivity.
  - destruct (shares_endpoint e) as [[elements|]| |] eqn:Hlist; try discriminate.
    apply forallb_false in Hbad. destruct Hbad as (bad & Hin & Hbad).
    reach_listing Hrow Hpool Hup Hme.
    rewrite Hlist; cbn [fst snd table rng trace].
    match goal with |- context [js_map ?f ?l ?w0] =>
      destruct (js_map_throws f l bad Hin
                  (fun w1 => Rev3_formatPost_throws bad w1 Hbad) w0)
        as (err & w' & Hthrow);
      rewrite Hthrow;
      pose proof (js_map_error f (fun err => err_response err = None) l
                    Rev3_formatPost_error _ _ _ Hthrow) as Hplain end.
    cbn [fst]. unfold Rev3.errorMessage. rewrite Hplain.
    exists (err_message err). reflexivity.
Qed.

Lemma unnormalizable_listing_fails_witness :
  exists diag,
    fst (posts_of R3 srv0 env_bad_listing w_connected)
    = Return (upstream_error R3 diag).
Proof.
  apply (unnormalizable_listing_fails R3 srv0 env_bad_listing w_connected
           {| access_token := "token-0"; expires_at := Some 0 |}
           {| profile_id := Some "abc" |}
           [Some (JStr "p1"); Some (JStr "s2")]).
  - vm_compute. reflexivity.
  - reflexivity.
  - reflexivity.
  - reflexivity.
  - reflexivity.
  - vm_compute. reflexivity.
Defined.

(** ** Upstream failures *)

(** When the identity call, or the listing call after a successful identity
    call, fails other than with HTTP 403 (another status, or no reply at
    all), the handler answers 500.  Revisions 1 and 2 send a fixed message;
    revision 3 sends the provider's error body, or the network error
    message, to the caller as it came. *)
Theorem upstream_failure_is_500 rev srv e w row :
  table w !! "default_user" = Some row ->
  dbPool srv = true ->
  db_up e = true ->
  upstream_failed rev e = true ->
  fst (posts_of rev srv e w)
  = Return (upstream_error rev (upstream_diagnostic rev e)).
Proof.
  intros Hrow Hpool Hup Hfail.
  unfold upstream_failed, upstream_diagnostic, upstream_error in *.
  destruct rev; simpl; run_handler; unfold rows_where;
    rewrite Hpool, Hup; cbn [negb fst snd table rng trace];
    rewrite Hrow; cbn [option_list option_rect fst snd table rng trace];
    (destruct (me_endpoint e) as [p|status body|msg];
     cbn [fst snd table rng trace err_response err_message upstream_failure diagnostic] in *);
    try (destruct (status =? 403); [discriminate|reflexivity]);
    try reflexivity;
    match goal with
    | |- context [posts_endpoint e] =>
        destruct (posts_endpoint e) as [els|status body|msg]
    | |- context [shares_endpoint e] =>
        destruct (shares_endpoint e) as [els|status body|msg]
    end;
    cbn [fst snd table rng trace err_response err_message upstream_failure diagnostic] in *;
    try discriminate;
    try (destruct (status =? 403); [discriminate|reflexivity]);
    reflexivity.
Qed.

Lemma upstream_failure_is_500_witness :
  fst (posts_of R3 srv0 env_upstream_down w_connected)
  = Return (upstream_error R3 (upstream_diagnostic R3 env_upstream_down)).
Proof.
  apply (upstream_failure_is_500 R3 srv0 env_upstream_down w_connected
           {| access_token := "token-0"; expires_at := Some 0 |}).
  - vm_compute. reflexivity.
  - reflexivity.
  - reflexivity.
  - reflexivity.
Defined.

(** ** The record on file *)

Lemma blind_ret {A} (a : A) : reads_only_rng (ret a).
Proof. intros w1 w2 Hr. split; [reflexivity|assumption]. Qed.

Lemma blind_throw {A} (err : js_error) : reads_only_rng (throw (A := A) err).
Proof. intros w1 w2 Hr. split; [reflexivity|assumption]. Qed.

Lemma blind_bind {A B} (m : M A) (k : A -> M B) :
  reads_only_rng m -> (forall a, reads_only_rng (k a)) -> reads_only_rng (bind m k).
Proof.
  intros Hm Hk w1 w2 Hr. unfold bind.
  destruct (Hm w1 w2 Hr) as (Hfst & Hr').
  destruct (m w1) as [[a1|err1] u1], (m w2) as [[a2|err2] u2];
    simpl in *; try discriminate.
  - injection Hfst as <-. apply Hk; assumption.
  - injection Hfst as <-. split; [reflexivity|assumption].
Qed.

Lemma blind_floor_random n : reads_only_rng (floor_random n).
Proof.
  intros w1 w2 Hr. unfold floor_random. simpl. rewrite Hr.
  split; reflexivity.
Qed.

Lemma blind_js_map {A B} (f : A -> M B) (l : list A) :
  (forall a, reads_only_rng (f a)) -> reads_only_rng (js_map f l).
Proof.
  intros Hf. induction l as [|x rest IH]; simpl.
  - apply blind_ret.
  - apply blind_bind; [apply Hf|]. intros y.
    apply blind_bind; [apply IH|]. intros ys. apply blind_ret.
Qed.

Lemma blind_iso_date t : reads_only_rng (iso_date t).
Proof.
  unfold iso_date. destruct (TimeClip t); [apply blind_ret|apply blind_throw].
Qed.

Lemma blind_placeholder_image : reads_only_rng placeholder_image.
Proof.
  unfold placeholder_image. apply blind_bind; [apply blind_floor_random|].
  intros n. apply blind_ret.
Qed.

Lemma blind_or_else v d : reads_only_rng d -> reads_only_rng (or_else v d).
Proof.
  intros Hd. unfold or_else. destruct v as [s|]; [|assumption].
  destruct (truthy_string s); [apply blind_ret|assumption].
Qed.

Ltac blind_steps :=
  repeat first
    [ apply blind_ret | apply blind_throw | apply blind_floor_random
    | apply blind_iso_date | apply blind_placeholder_image
    | apply blind_or_else
    | apply blind_bind; [|intros ?] ].

Lemma Rev1_formatPost_blind post : reads_only_rng (Rev1.formatPost post).
Proof. unfold Rev1.formatPost. blind_steps. Qed.

Lemma Rev2_formatPost_blind post : reads_only_rng (Rev2.formatPost post).
Proof. unfold Rev2.formatPost. blind_steps. Qed.

Lemma Rev3_formatPost_blind post : reads_only_rng (Rev3.formatPost post).
Proof.
  unfold Rev3.formatPost, Rev3.index_specificContent.
  destruct (specificContent post); blind_steps.
Qed.

Ltac js_map_blind Hblind Hquiet :=
  match goal with
  | |- context [js_map ?f ?l ?wa] =>
      match goal with
      | |- context [js_map f l ?wb] =>
          lazymatch wa with
          | wb => fail
          | _ =>
              let H := fresh "Hsame" in
              let Ha := fresh "Hqa" in
              let Hb := fresh "Hqb" in
              destruct (blind_js_map f l Hblind wa wb eq_refl) as (H & _);
              destruct (quiet_js_map f l Hquiet wa) as (_ & Ha);
              destruct (quiet_js_map f l Hquiet wb) as (_ & Hb);
              destruct (js_map f l wa) as [[? | ?] ?];
              destruct (js_map f l wb) as [[? | ?] ?];
              cbn [fst snd table rng trace err_response err_message] in *;
              try discriminate H; injection H as <-
          end
      end
  end.

(** The expiry on file is never read: with any other [expires_at] on the
    user's record, the status and the posts handlers give the same answer
    and perform the same actions, request for request, so a token past its
    expiry is presented to the provider like a fresh one. *)
Theorem expiry_is_never_read rev srv e w exp :
  fst (status_of rev srv e (with_expiry exp w)) = fst (status_of rev srv e w)
  /\ trace (snd (status_of rev srv e (with_expiry exp w)))
     = trace (snd (status_of rev srv e w))
  /\ fst (posts_of rev srv e (with_expiry exp w)) = fst (posts_of rev srv e w)
  /\ trace (snd (posts_of rev srv e (with_expiry exp w)))
     = trace (snd (posts_of rev srv e w)).
Proof.
  assert (Hstatus :
    fst (status_of rev srv e (with_expiry exp w)) = fst (status_of rev srv e w)
    /\ trace (snd (status_of rev srv e (with_expiry exp w)))
       = trace (snd (status_of rev srv e w))).
  { unfold with_expiry.
    destruct rev; simpl; run_handler; unfold rows_where;
      destruct (dbPool srv); destruct (db_up e);
      cbn [negb fst snd table rng trace]; try (split; reflexivity);
      (destruct (table w !! "default_user") as [r0|] eqn:Hr;
       [rewrite lookup_insert_eq|rewrite Hr]);
      split; reflexivity. }
  assert (Hposts :
    fst (posts_of rev srv e (with_expiry exp w)) = fst (posts_of rev srv e w)
    /\ trace (snd (posts_of rev srv e (with_expiry exp w)))
       = trace (snd (posts_of rev srv e w))).
  { unfold with_expiry.
    destruct rev; simpl; run_handler; unfold rows_where;
      destruct (dbPool srv); destruct (db_up e);
      cbn [negb fst snd table rng trace]; try (split; reflexivity);
      (destruct (table w !! "default_user") as [r0|] eqn:Hr;
       [rewrite lookup_insert_eq|rewrite Hr; split; reflexivity]);
      cbn [option_list option_rect fst snd table rng trace access_token];
      repeat first
        [ js_map_blind Rev1_formatPost_blind Rev1_formatPost_quiet
        | js_map_blind Rev2_formatPost_blind Rev2_formatPost_quiet
        | js_map_blind Rev3_formatPost_blind Rev3_formatPost_quiet
        | next_case ];
      repeat match goal with Hq : trace _ = _ |- _ => rewrite Hq; clear Hq end;
      split; reflexivity. }
  tauto.
Qed.

(** The callback does not echo the token: two requests whose exchanges
    succeed get the same answer, whatever token each received. *)
Theorem callback_answers_hide_the_token rev srv e1 code1 w1 e2 code2 w2 :
  is_Some (exchanged srv e1 code1) ->
  is_Some (exchanged srv e2 code2) ->
  fst (callback_of rev srv e1 code1 w1) = fst (callback_of rev srv e2 code2 w2).
Proof.
  intros [r1 H1] [r2 H2]. rewrite !callback_of_answer.
  unfold callback_answer. rewrite H1, H2. reflexivity.
Qed.

Lemma callback_answers_hide_the_token_witness :
  fst (callback_of R1 srv0 env0 (QStr "abc123") w_empty)
  = fst (callback_of R1 srv0 env1 (QStr "def456") w_connected).
Proof.
  apply (callback_answers_hide_the_token R1 srv0 env0 (QStr "abc123") w_empty
           env1 (QStr "def456") w_connected);
    vm_compute; eauto.
Defined.

(** Behind its pool test, revision 2 is revision 1: with a pool, its three
    handlers compute what those of revision 1 compute, answer and world. *)
Theorem Rev2_is_Rev1_behind_the_guard srv e code w :
  dbPool srv = true ->
  Rev2.callback srv e code w = Rev1.callback srv e code w
  /\ Rev2.status srv e w = Rev1.status srv e w
  /\ Rev2.posts srv e w = Rev1.posts srv e w.
Proof.
  intros Hpool. split; [|split].
  - unfold Rev2.callback, Rev1.callback. rewrite Hpool. reflexivity.
  - run_handler. rewrite Hpool. cbn [negb].
    repeat next_case; reflexivity.
  - unfold Rev2.posts. rewrite Hpool. reflexivity.
Qed.

Lemma Rev2_is_Rev1_behind_the_guard_witness :
  Rev2.callback srv0 env0 (QStr "abc123") w_connected
  = Rev1.callback srv0 env0 (QStr "abc123") w_connected
  /\ Rev2.status srv0 env0 w_connected = Rev1.status srv0 env0 w_connected
  /\ Rev2.posts srv0 env0 w_connected = Rev1.posts srv0 env0 w_connected.
Proof.
  apply (Rev2_is_Rev1_behind_the_guard srv0 env0 (QStr "abc123") w_connected).
  reflexivity.
Defined.

(** ** Start-up and the handlers behind it *)

(** Revision 3 listens only when [FRONTEND_URL] is set and not empty, the
    pool was created and the test connection succeeded; every answer of its
    callback is then a redirect below that [FRONTEND_URL], to one of the
    two settings pages. *)
Theorem Rev3_serves_only_when_configured p db port host srv fallback :
  Rev3.startServer p db = Listening port host srv fallback ->
  dbPool srv = true
  /\ getConnection_resolves db = true
  /\ fallback = false
  /\ exists url,
       env_FRONTEND_URL p = Some url
       /\ url <> ""
       /\ forall e code w,
            fst (Rev3.callback srv e code w)
            = Return (res_redirect (url +:+ "/settings?connected=true"))
            \/ fst (Rev3.callback srv e code w)
               = Return (res_redirect (url +:+ "/settings?error=true")).
Proof.
  unfold Rev3.startServer, Rev3.testDbConnection.
  destruct (env_FRONTEND_URL p) as [url|] eqn:Hurl; simpl; [|discriminate].
  destruct (truthy_string url) eqn:Htruthy; simpl; [|discriminate].
  destruct (createPool_returns db); simpl; [|discriminate].
  destruct (getConnection_resolves db); simpl; [|discriminate].
  intros H. injection H as <- <- <- <-.
  repeat split. exists url. split; [reflexivity|].
  split; [apply truthy_string_nonempty; assumption|].
  intros e code w.
  destruct (Rev3_callback_run (handlers_config p true) e code w) as [-> _].
  unfold callback_answer, success_page, failure_page. simpl. rewrite Hurl. simpl.
  destruct (exchanged (handlers_config p true) e code); [left|right]; reflexivity.
Qed.

Lemma Rev3_serves_only_when_configured_witness :
  dbPool (handlers_config penv0 true) = true
  /\ getConnection_resolves db_ready = true
  /\ false = false
  /\ exists url,
       env_FRONTEND_URL penv0 = Some url
       /\ url <> ""
       /\ forall e code w,
            fst (Rev3.callback (handlers_config penv0 true) e code w)
            = Return (res_redirect (url +:+ "/settings?connected=true"))
            \/ fst (Rev3.callback (handlers_config penv0 true) e code w)
               = Return (res_redirect (url +:+ "/settings?error=true")).
Proof.
  apply (Rev3_serves_only_when_configured penv0 db_ready "10000" (Some "0.0.0.0")).
  reflexivity.
Defined.

(** Revision 1 listens whatever became of the pool and without testing a
    connection.  When [createPool] threw, the [TypeError] of
    [dbPool.execute] is caught in each handler: the status handler answers
    500 with its message and the posts handler its generic 500, without
    reaching the database or the provider. *)
Theorem Rev1_listens_without_a_pool p db :
  exists port srv,
    Rev1.start p db = Listening port None srv false
    /\ dbPool srv = createPool_returns db
    /\ (dbPool srv = false ->
        forall e w,
          Rev1.status srv e w = (Return (status_unknown R1), w)
          /\ Rev1.posts srv e w
             = (Return (Json 500 (message "Failed to fetch posts from LinkedIn API.")), w)).
Proof.
  exists (or_default (env_PORT p) "3001"),
         (handlers_config p (createPool_returns db)).
  split; [reflexivity|]. split; [reflexivity|].
  simpl. intros Hpool e w. run_handler. simpl. rewrite Hpool.
  split; reflexivity.
Qed.

(** Revision 2 always listens.  It registers the 503 route exactly when it
    is left without a pool, which happens when the pool cannot be created
    or the test connection is refused; its three handlers then answer at
    once with their fixed answers and touch neither the database nor the
    provider. *)
Theorem Rev2_always_listens p db :
  exists port srv,
    Rev2.startServer p db = Listening port None srv (negb (dbPool srv))
    /\ dbPool srv = createPool_returns db && getConnection_resolves db
    /\ (dbPool srv = false ->
        forall e code w,
          Rev2.callback srv e code w = (Return database_failed_page, w)
          /\ Rev2.posts srv e w
             = (Return (Json 500 (message "Server error: Database connection failed.")), w)
          /\ Rev2.status srv e w = (Return (status_answer false), w)).
Proof.
  exists (or_default (env_PORT p) "3001"),
         (handlers_config p (createPool_returns db && getConnection_resolves db)).
  unfold Rev2.startServer, Rev2.initializeDatabase.
  destruct (createPool_returns db), (getConnection_resolves db); simpl;
    (split; [reflexivity|]); (split; [reflexivity|]);
    intros H; try discriminate;
    intros e code w; repeat split.
Qed.

(** When the statement cannot reach the database (and the request is not
    stopped by the pool test of revision 2), a callback request that
    carries a code still spends it: the token request is sent, nothing is
    stored, and the user is sent to the failure page. *)
Theorem unavailable_database_spends_the_code rev srv e code w :
  truthy code = true ->
  without_pool rev srv = false ->
  dbPool srv && db_up e = false ->
  outbound_since w (snd (callback_of rev srv e code w))
  = [token_exchange_call rev srv code]
  /\ table (snd (callback_of rev srv e code w)) = table w
  /\ fst (callback_of rev srv e code w) = Return (res_redirect (failure_page srv)).
Proof.
  intros Hcode Hguard Hdb.
  assert (Hex : exchanged srv e code = None).
  { unfold exchanged. rewrite Hcode. simpl. rewrite Hdb. reflexivity. }
  split; [|split].
  - rewrite callback_of_outbound, Hcode, Hguard. reflexivity.
  - rewrite callback_of_table. unfold callback_table. rewrite Hex. reflexivity.
  - rewrite callback_of_answer, Hguard. unfold callback_answer. rewrite Hex.
    reflexivity.
Qed.

Lemma unavailable_database_spends_the_code_witness :
  outbound_since w_connected
    (snd (callback_of R1 srv0 env_db_down (QStr "ghi789") w_connected))
  = [token_exchange_call R1 srv0 (QStr "ghi789")]
  /\ table (snd (callback_of R1 srv0 env_db_down (QStr "ghi789") w_connected))
     = table w_connected
  /\ fst (callback_of R1 srv0 env_db_down (QStr "ghi789") w_connected)
     = Return (res_redirect (failure_page srv0)).
Proof.
  apply (unavailable_database_spends_the_code R1 srv0 env_db_down
           (QStr "ghi789") w_connected); reflexivity.
Defined.


(** ** The date of a post *)

Lemma civil_from_days_range t :
  -62167219200000 <= t <= 253402300799999 ->
  let '(y, m, d) := civil_from_days (t / msPerDay) in
  0 <= y <= 9999 /\ 1 <= m <= 12 /\ 1 <= d <= 31.
Proof.
  intros Ht. unfold msPerDay.
  assert (Hdays : -719528 <= t / 86400000 <= 2932896)
    by (Z.div_mod_to_equations; lia).
  revert Hdays. generalize (t / 86400000). clear t Ht. intros days Hdays.
  unfold civil_from_days. cbv zeta.
  set (z := days + 719468). set (era := z / 146097).
  set (doe := z - era * 146097).
  assert (Hera : -1 <= era <= 24) by (subst era z; Z.div_mod_to_equations; lia).
  assert (Hdoe : 0 <= doe <= 146096 /\ (era = -1 -> 146037 <= doe)
                 /\ (era = 24 -> doe <= 146036)).
  { subst doe era z. Z.div_mod_to_equations; lia. }
  clearbody doe era. clear z Hdays.
  set (yoe := (doe - doe / 1460 + doe / 36524 - doe / 146096) / 365).
  set (doy := doe - (365 * yoe + yoe / 4 - yoe / 100)).
  assert (Hdoy : 0 <= doy <= 365 /\ 0 <= yoe <= 399
                 /\ (146037 <= doe -> yoe = 399 /\ 306 <= doy)
                 /\ (doe <= 146036 -> yoe < 399 \/ doy < 306)).
  { subst doy yoe. Z.div_mod_to_equations; lia. }
  clearbody doy yoe.
  set (mp := (5 * doy + 2) / 153).
  assert (Hmp : 0 <= mp <= 11 /\ (306 <= doy -> 10 <= mp) /\ (doy < 306 -> mp < 10))
    by (subst mp; Z.div_mod_to_equations; lia).
  destruct (mp <? 10) eqn:E; [apply Z.ltb_lt in E|apply Z.ltb_ge in E].
  - destruct (mp + 3 <=? 2) eqn:E2; [apply Z.leb_le in E2; lia|].
    split; [lia|]. subst mp; Z.div_mod_to_equations; lia.
  - destruct (mp - 9 <=? 2) eqn:E2; [|apply Z.leb_gt in E2; lia].
    split; [lia|]. subst mp; Z.div_mod_to_equations; lia.
Qed.

Lemma padded_below (width : nat) (bound n : Z) :
  forallb (padded_to width) (seqZ 0 bound) = true ->
  0 <= n < bound ->
  padded_to width n = true.
Proof.
  intros Hall Hn. apply (proj1 (forallb_forall _ _) Hall).
  apply list_elem_of_In, elem_of_seqZ. lia.
Qed.

Lemma pad2_shape n : 0 <= n < 100 -> padded_to 2 n = true.
Proof. apply padded_below. vm_compute. reflexivity. Qed.

Lemma pad4_shape n : 0 <= n < 10000 -> padded_to 4 n = true.
Proof. apply padded_below. vm_compute. reflexivity. Qed.

Lemma append_cons c a b : String c a +:+ b = String c (a +:+ b).
Proof. reflexivity. Qed.

Lemma append_empty_r a : a +:+ "" = a.
Proof.
  induction a as [|c a IH]; [reflexivity|]. rewrite append_cons, IH. reflexivity.
Qed.

Lemma split_T_head_app a b :
  string_forall (fun c => negb (Ascii.eqb c "T"%char)) a = true ->
  split_T_head (a +:+ b) = a +:+ split_T_head b.
Proof.
  unfold string_forall. induction a as [|c a IH]; simpl; [reflexivity|].
  intros H. apply andb_true_iff in H. destruct H as [Hc Ha].
  apply negb_true_iff in Hc. rewrite append_cons. simpl.
  rewrite Hc, IH by assumption. reflexivity.
Qed.

Lemma length_append a b :
  String.length (a +:+ b) = (String.length a + String.length b)%nat.
Proof.
  induction a as [|c a IH]; [reflexivity|].
  rewrite append_cons. simpl. congruence.
Qed.

(** For a time stamp in the years 0000 to 9999, [date] is the UTC calendar
    day of the time stamp, written as four digits, two digits and two
    digits between dashes (ten characters): the month lies between 1 and
    12, the day between 1 and 31, and the time of day leaves no trace. *)
Theorem date_is_the_utc_day t :
  -62167219200000 <= t <= 253402300799999 ->
  exists y m d,
    civil_from_days (t / msPerDay) = (y, m, d)
    /\ 0 <= y <= 9999 /\ 1 <= m <= 12 /\ 1 <= d <= 31
    /\ iso_date t = ret (pad 4 y +:+ "-" +:+ pad 2 m +:+ "-" +:+ pad 2 d)
    /\ String.length (pad 4 y +:+ "-" +:+ pad 2 m +:+ "-" +:+ pad 2 d) = 10%nat.
Proof.
  intros Ht. pose proof (civil_from_days_range t Ht) as Hrange.
  destruct (civil_from_days (t / msPerDay)) as [[y m] d] eqn:Hcivil.
  destruct Hrange as (Hy & Hm & Hd).
  exists y, m, d. split; [reflexivity|]. do 3 (split; [assumption|]).
  assert (Py : padded_to 4 y = true) by (apply pad4_shape; lia).
  assert (Pm : padded_to 2 m = true) by (apply pad2_shape; lia).
  assert (Pd : padded_to 2 d = true) by (apply pad2_shape; lia).
  unfold padded_to in *.
  apply andb_true_iff in Py, Pm, Pd.
  destruct Py as [Ly Ty], Pm as [Lm Tm], Pd as [Ld Td].
  apply Nat.eqb_eq in Ly, Lm, Ld.
  split.
  - unfold iso_date. rewrite TimeClip_valid by lia. f_equal.
    unfold toISOString. rewrite Hcivil. unfold iso_year.
    replace ((0 <=? y) && (y <=? 9999)) with true
      by (symmetry; apply andb_true_iff; split; apply Z.leb_le; lia).
    rewrite (split_T_head_app (pad 4 y)) by assumption. f_equal.
    change ("-" +:+ pad 2 m +:+ ?r) with (String "-" (pad 2 m +:+ r)).
    cbn [split_T_head Ascii.eqb Bool.eqb]. f_equal.
    rewrite (split_T_head_app (pad 2 m)) by assumption. f_equal.
    change ("-" +:+ pad 2 d +:+ ?r) with (String "-" (pad 2 d +:+ r)).
    cbn [split_T_head Ascii.eqb Bool.eqb]. f_equal.
    rewrite (split_T_head_app (pad 2 d)) by assumption.
    change ("T" +:+ ?r) with (String "T" r).
    cbn [split_T_head Ascii.eqb Bool.eqb]. apply append_empty_r.
  - rewrite !length_append, Ly, Lm, Ld. reflexivity.
Qed.

Lemma date_is_the_utc_day_witness :
  exists y m d,
    civil_from_days (1717243200123 / msPerDay) = (y, m, d)
    /\ 0 <= y <= 9999 /\ 1 <= m <= 12 /\ 1 <= d <= 31
    /\ iso_date 1717243200123
       = ret (pad 4 y +:+ "-" +:+ pad 2 m +:+ "-" +:+ pad 2 d)
    /\ String.length (pad 4 y +:+ "-" +:+ pad 2 m +:+ "-" +:+ pad 2 d) = 10%nat.
Proof. apply (date_is_the_utc_day 1717243200123). lia. Defined.
